(** * arrive.map_environment: [show_on_basemap]

    A shallow embedding of [src/arrive/map_environment.py] and the
    properties of its type dispatch, loaders, renderer and error paths.

    Conventions of the embedding.
    - A Python [str] is a Rocq [string] whose characters are the code
      points below 256 (the Latin-1 range); [str.lower] is exact there.
    - A Python [float] is a binary64 [PrimFloat.float].
    - [pathlib.Path] is the POSIX flavour; [suffix] is the classic
      [rfind] rule of CPython up to 3.13.
    - Everything the function obtains from outside (the file system, the
      vector and raster readers, the projection engine, the tile server,
      the drawing routines) is a field of a [World]; the Python process
      state that survives a call (pyplot's registry of open figures, the
      raster handles still open, the log of library requests) is a
      [State], threaded explicitly. *)

From Stdlib Require Import Bool Arith ZArith Lia List String Ascii.
From Stdlib Require Import Floats.PrimFloat.
Import ListNotations.

Local Open Scope list_scope.
Local Open Scope string_scope.

(* Decimal literals such as 0.05 denote the nearest binary64 value, as
   they do in Python. *)
#[local] Set Warnings "-inexact-float".

(* ================================================================== *)
(** ** Python strings *)

Module PyStr.

(** [str.lower] on one code point below 256: [A-Z] and the Latin-1
    capitals U+00C0..U+00DE (U+00D7, the multiplication sign, apart)
    move up by 32; every other code point is its own lower case. *)
Definition lower_char (c : ascii) : ascii :=
  let n := nat_of_ascii c in
  if (((65 <=? n) && (n <=? 90))
      || ((192 <=? n) && (n <=? 222) && negb (n =? 215)))%nat
  then ascii_of_nat (n + 32)
  else c.

Fixpoint lower (s : string) : string :=
  match s with
  | EmptyString => EmptyString
  | String c t => String (lower_char c) (lower t)
  end.

(** [s.rfind('.')]: the index of the last dot, [None] for Python's -1. *)
Fixpoint rfind_dot (s : string) : option nat :=
  match s with
  | EmptyString => None
  | String c t =>
      match rfind_dot t with
      | Some i => Some (S i)
      | None => if Ascii.eqb c "." then Some 0 else None
      end
  end.

(** [s[i:]] *)
Fixpoint drop (i : nat) (s : string) : string :=
  match i, s with
  | O, _ => s
  | S _, EmptyString => EmptyString
  | S j, String _ t => drop j t
  end.

(** [sep.join(l)] *)
Fixpoint join (sep : string) (l : list string) : string :=
  match l with
  | [] => ""
  | [x] => x
  | x :: rest => x ++ sep ++ join sep rest
  end.

(** [s.split('/')], with the component being read carried in [cur]. *)
Fixpoint split_slash (cur : string) (s : string) : list string :=
  match s with
  | EmptyString => [cur]
  | String c t =>
      if Ascii.eqb c "/" then cur :: split_slash "" t
      else split_slash (cur ++ String c "") t
  end.

(** [needle in s], as a proposition. *)
Definition contains (s needle : string) : Prop :=
  exists pre post, s = pre ++ needle ++ post.

(** A decision procedure for [needle in s] on closed strings. *)
Fixpoint starts_with (needle s : string) : bool :=
  match needle, s with
  | EmptyString, _ => true
  | String a n, String b t => Ascii.eqb a b && starts_with n t
  | String _ _, EmptyString => false
  end.

Fixpoint containsb (s needle : string) : bool :=
  starts_with needle s
  || match s with
     | EmptyString => false
     | String _ t => containsb t needle
     end.

(** [x in {...}] for a set literal of strings. *)
Definition mem (x : string) (set : list string) : bool :=
  existsb (String.eqb x) set.

End PyStr.

(* ================================================================== *)
(** ** pathlib (POSIX flavour) *)

Module Pathlib.

(** A parsed path: the root ([""], ["/"] or ["//"]) and the components
    after it. *)
Record Path := mkPath { p_root : string; p_parts : list string }.

Definition starts_with_slash (s : string) : bool :=
  match s with String c _ => Ascii.eqb c "/" | _ => false end.

(** The root of a POSIX path string: exactly two leading slashes are
    kept, one or three and more collapse to one. *)
Definition root_of (s : string) : string :=
  match s with
  | String a (String b rest) =>
      if Ascii.eqb a "/" then
        if Ascii.eqb b "/" then
          if starts_with_slash rest then "/" else "//"
        else "/"
      else ""
  | String a EmptyString => if Ascii.eqb a "/" then "/" else ""
  | EmptyString => ""
  end.

(** [Path(s)] for a string: empty and ["."] components are dropped. *)
Definition parse (s : string) : Path :=
  mkPath (root_of s)
         (filter (fun c => negb (String.eqb c "" || String.eqb c "."))
                 (PyStr.split_slash "" s)).

(** What [show_on_basemap] accepts as [data_path]: [Union[str, Path]]. *)
Inductive PathArg :=
| ArgStr (s : string)
| ArgPath (p : Path).

(** [Path(data_path)]: a [Path] is taken as it is. *)
Definition Path_of (a : PathArg) : Path :=
  match a with
  | ArgStr s => parse s
  | ArgPath p => p
  end.

(** [path.name]: the final component, [""] when there is none. *)
Definition name (p : Path) : string := last (p_parts p) "".

(** [str(path)] *)
Definition str (p : Path) : string :=
  match p_root p, p_parts p with
  | EmptyString, [] => "."
  | r, parts => r ++ PyStr.join "/" parts
  end.

(** [PurePath.suffix] on a name:
    [i = name.rfind('.'); name[i:] if 0 < i < len(name) - 1 else ''] *)
Definition suffix_of_name (nm : string) : string :=
  match PyStr.rfind_dot nm with
  | Some i =>
      if ((0 <? i) && (i <? String.length nm - 1))%nat then PyStr.drop i nm
      else ""
  | None => ""
  end.

(** [path.suffix] *)
Definition suffix (p : Path) : string := suffix_of_name (name p).

End Pathlib.

Import Pathlib.

(* ================================================================== *)
(** ** The type dispatcher (source lines 49-59) *)

Definition raster_extensions : list string := [".tif"; ".tiff"; ".geotiff"].

Definition vector_extensions : list string :=
  [".shp"; ".geojson"; ".json"; ".gpkg"; ".fgb"].

(** [def _is_raster(path)] *)
Definition _is_raster (path : Path) : bool :=
  PyStr.mem (PyStr.lower (suffix path)) raster_extensions.

(** [def _is_vector(path)] *)
Definition _is_vector (path : Path) : bool :=
  PyStr.mem (PyStr.lower (suffix path)) vector_extensions.

(** What the branch of [show_on_basemap] on the two predicates selects:
    [_is_vector] is tried first, [_is_raster] second, [else] last. *)
Inductive Kind := Vector | Raster | Unsupported.

Definition classify (path : Path) : Kind :=
  if _is_vector path then Vector
  else if _is_raster path then Raster
  else Unsupported.

(* ================================================================== *)
(** ** Python exceptions *)

Record PyExc := mkExc { exc_type : string; exc_msg : string }.

Definition FileNotFoundError (msg : string) : PyExc := mkExc "FileNotFoundError" msg.
Definition ValueError (msg : string) : PyExc := mkExc "ValueError" msg.

(** How a call of [show_on_basemap] can end abnormally: by one of its own
    [raise] statements, or by an exception that left a library call and
    that no handler of the function stopped. *)
Inductive Raised :=
| Own (e : PyExc)
| FromLibrary (e : PyExc).

(** The outcome of a library call: the exception it raised, or its value. *)
Definition result (A : Type) : Type := (PyExc + A)%type.

(* ================================================================== *)
(** ** matplotlib: frames, figures and view limits *)

Module Mpl.

Local Open Scope float_scope.

Definition Artist := string.

(** A coordinate frame ([matplotlib.axes.Axes]), as far as the function
    touches it. *)
Record Axes := mkAxes {
  ax_position : float * float * float * float;
  ax_frameon : bool;
  ax_xlim : float * float;
  ax_ylim : float * float;
  ax_zorder : Z;
  ax_patch_alpha : option Z;
  ax_xlabel : string;
  ax_ylabel : string;
  ax_artists : list Artist
}.

(** A rendering surface ([matplotlib.figure.Figure]) with the number
    pyplot registered it under and its frames in creation order. *)
Record Figure := mkFigure {
  fig_number : nat;
  fig_figsize : Z * Z;
  fig_axes : list Axes
}.

(** What a drawing routine leaves in a frame: the artists it adds and the
    view limits after its autoscaling. *)
Record DrawEffect := mkDraw {
  de_artists : list Artist;
  de_xlim : float * float;
  de_ylim : float * float
}.

(** The position of the single subplot of [plt.subplots()] under the
    default [figure.subplot.*] settings: left, bottom, right, top. *)
Definition subplot_position : float * float * float * float :=
  (0.125, 0.11, 0.9, 0.88).

(** A frame as [Figure.add_axes] or [plt.subplots] creates it. *)
Definition new_axes (pos : float * float * float * float) (frameon : bool) : Axes :=
  mkAxes pos frameon (0, 1) (0, 1) 0%Z None "" "" [].

Definition is_finite (x : float) : bool := negb (is_nan x || is_infinity x).

(** Python's [max(a, b)]: the first maximal argument. *)
Definition py_max (a b : float) : float := if a <? b then b else a.

Definition expander : float := 0.05.
Definition tiny : float := 1e-15.
(** [np.finfo(float).tiny] *)
Definition finfo_tiny : float := 0x1p-1022.


(** [matplotlib.transforms.nonsingular(vmin, vmax, expander=.05)] as
    [Locator.nonsingular] calls it ([tiny=1e-15], [increasing=True]), on
    finite arguments. *)
Definition nonsingular (v0 v1 : float) : float * float :=
  let '(vmin, vmax) := if v1 <? v0 then (v1, v0) else (v0, v1) in
  let maxabsvalue := py_max (abs vmin) (abs vmax) in
  if maxabsvalue <? (1e6 / tiny) * finfo_tiny then (- expander, expander)
  else if vmax - vmin <=? maxabsvalue * tiny then
    if (vmax =? 0) && (vmin =? 0) then (- expander, expander)
    else (vmin - expander * abs vmin, vmax + expander * abs vmax)
  else (vmin, vmax).


(** [sorted([a, b], reverse=reverse)] *)
Definition sorted2 (a b : float) (reverse : bool) : float * float :=
  if reverse then (if a <? b then (b, a) else (a, b))
  else (if b <? a then (b, a) else (a, b)).

(** [Axis._set_lim(v0, v1)] on a linear axis: non-finite limits are
    refused, a singular interval is expanded, the orientation asked for
    is kept. *)
Definition set_lim (v0 v1 : float) : result (float * float) :=
  if negb (is_finite v0) || negb (is_finite v1)
  then inl (ValueError "Axis limits cannot be NaN or Inf")
  else
    let reverse := v1 <? v0 in
    let '(a, b) := nonsingular v0 v1 in
    inr (sorted2 a b reverse).

(** The in-memory setters. *)
Definition with_xlim (ax : Axes) (l : float * float) : Axes :=
  mkAxes (ax_position ax) (ax_frameon ax) l (ax_ylim ax) (ax_zorder ax)
         (ax_patch_alpha ax) (ax_xlabel ax) (ax_ylabel ax) (ax_artists ax).

Definition with_ylim (ax : Axes) (l : float * float) : Axes :=
  mkAxes (ax_position ax) (ax_frameon ax) (ax_xlim ax) l (ax_zorder ax)
         (ax_patch_alpha ax) (ax_xlabel ax) (ax_ylabel ax) (ax_artists ax).

(** [ax.set_zorder(z)] *)
Definition set_zorder (ax : Axes) (z : Z) : Axes :=
  mkAxes (ax_position ax) (ax_frameon ax) (ax_xlim ax) (ax_ylim ax) z
         (ax_patch_alpha ax) (ax_xlabel ax) (ax_ylabel ax) (ax_artists ax).

(** [ax.patch.set_alpha(a)] *)
Definition patch_set_alpha (ax : Axes) (a : Z) : Axes :=
  mkAxes (ax_position ax) (ax_frameon ax) (ax_xlim ax) (ax_ylim ax)
         (ax_zorder ax) (Some a) (ax_xlabel ax) (ax_ylabel ax) (ax_artists ax).

(** [ax.set_xlabel(s)], [ax.set_ylabel(s)] *)
Definition set_xlabel (ax : Axes) (s : string) : Axes :=
  mkAxes (ax_position ax) (ax_frameon ax) (ax_xlim ax) (ax_ylim ax)
         (ax_zorder ax) (ax_patch_alpha ax) s (ax_ylabel ax) (ax_artists ax).

Definition set_ylabel (ax : Axes) (s : string) : Axes :=
  mkAxes (ax_position ax) (ax_frameon ax) (ax_xlim ax) (ax_ylim ax)
         (ax_zorder ax) (ax_patch_alpha ax) (ax_xlabel ax) s (ax_artists ax).

(** A drawing routine's effect on the frame it draws into. *)
Definition draw_into (ax : Axes) (d : DrawEffect) : Axes :=
  mkAxes (ax_position ax) (ax_frameon ax) (de_xlim d) (de_ylim d)
         (ax_zorder ax) (ax_patch_alpha ax) (ax_xlabel ax) (ax_ylabel ax)
         (ax_artists ax ++ de_artists d)%list.

Definition add_artists (ax : Axes) (l : list Artist) : Axes :=
  mkAxes (ax_position ax) (ax_frameon ax) (ax_xlim ax) (ax_ylim ax)
         (ax_zorder ax) (ax_patch_alpha ax) (ax_xlabel ax) (ax_ylabel ax)
         (ax_artists ax ++ l)%list.

(** The order in which [Figure.draw] paints the frames: by [zorder],
    frames of equal [zorder] in creation order (a stable insertion
    sort). *)
Fixpoint insert_by_zorder (a : Axes) (l : list Axes) : list Axes :=
  match l with
  | [] => [a]
  | b :: rest =>
      if (ax_zorder a <? ax_zorder b)%Z then a :: l
      else b :: insert_by_zorder a rest
  end.

Definition draw_order (fig : Figure) : list Axes :=
  fold_left (fun acc a => insert_by_zorder a acc) (fig_axes fig) [].

(** [plt.figure()] numbers a new figure one above the largest number
    in pyplot's registry, from 1. *)
Definition next_fignum (open : list nat) : nat :=
  match open with
  | [] => 1%nat
  | _ => S (fold_right Nat.max 0%nat open)
  end.

End Mpl.

Import Mpl.

(* ================================================================== *)
(** ** Geospatial data *)

Inductive CRS :=
| EPSG (code : Z)
| WKT (definition : string).

Definition CRS_eqb (a b : CRS) : bool :=
  match a, b with
  | EPSG m, EPSG n => Z.eqb m n
  | WKT s, WKT t => String.eqb s t
  | _, _ => false
  end.

(** A reference system handed to a library call: a CRS object (possibly
    [None]) or a string to be parsed by the library. *)
Inductive CrsArg :=
| CrsObject (c : option CRS)
| CrsString (s : string).

Definition BBox : Type := (float * float * float * float)%type.

Record Feature := mkFeature {
  ft_geometry : list (float * float);
  ft_attributes : list (string * string)
}.

(** [geopandas.GeoDataFrame]: the records and their reference system. *)
Record GeoDataFrame := mkGdf {
  gdf_features : list Feature;
  gdf_crs : option CRS
}.

(** What an open raster dataset exposes: the pixel grid, the affine
    transform, the native reference system and the bounds
    (left, bottom, right, top). *)
Record RasterData := mkRaster {
  rd_pixels : list (list float);
  rd_transform : float * float * float * float * float * float;
  rd_crs : option CRS;
  rd_bounds : BBox
}.

(** [rasterio.DatasetReader]: an open handle and what it reads. *)
Record DatasetReader := mkDataset {
  ds_handle : nat;
  ds_data : RasterData
}.

Definition Kwargs : Type := list (string * string).

(* ================================================================== *)
(** ** The world outside the function *)

(** What [os.stat] answers for a path: the file is there, or the call
    raises an [OSError] with an errno, or a [ValueError] (a name that cannot
    be encoded). *)
Inductive StatAnswer :=
| StatFound
| StatOSError (errno : Z) (e : PyExc)
| StatValueError.

Record World := mkWorld {
  (** [os.stat] behind [Path.exists] *)
  w_stat : Path -> StatAnswer;
  (** [geopandas.read_file] *)
  w_read_file : Path -> result GeoDataFrame;
  (** the projection engine behind [GeoDataFrame.to_crs] *)
  w_transform : CRS -> CRS -> list Feature -> result (list Feature);
  (** [GeoDataFrame.total_bounds]: minx, miny, maxx, maxy *)
  w_total_bounds : list Feature -> BBox;
  (** the backend creating the canvas of [plt.subplots] *)
  w_subplots : Z * Z -> result unit;
  (** [GeoDataFrame.plot] *)
  w_gdf_plot : GeoDataFrame -> Kwargs -> result DrawEffect;
  (** [contextily.add_basemap]: tiles fetched and drawn for an extent *)
  w_add_basemap :
    float * float -> float * float -> CrsArg -> bool -> result (list Artist);
  (** [rasterio.open] *)
  w_rasterio_open : Path -> result RasterData;
  (** [rasterio.plot.show] *)
  w_show_raster : RasterData -> Kwargs -> result DrawEffect;
  (** [rasterio.warp.transform_bounds]: minx, miny, maxx, maxy *)
  w_transform_bounds :
    option CRS -> string -> float -> float -> float -> float -> result BBox
}.

(** The errnos [Path.exists] takes for "not there": ENOENT, ENOTDIR,
    EBADF, ELOOP (Linux numbering). *)
Definition ignored_errnos : list Z := [2; 20; 9; 40]%Z.

(** [Path.exists] (CPython up to 3.13): [True] when [stat] succeeds,
    [False] when it fails with one of the ignored errnos or with a
    [ValueError]; any other [OSError] (a name too long, a directory that
    may not be searched) leaves the call. *)
Definition w_exists (w : World) (path : Path) : result bool :=
  match w_stat w path with
  | StatFound => inr true
  | StatOSError errno e =>
      if existsb (Z.eqb errno) ignored_errnos then inr false else inl e
  | StatValueError => inr false
  end.

(* ================================================================== *)
(** ** Process state and the log of library requests *)

Inductive Request :=
| ReqExists (p : Path)
| ReqReadFile (p : Path)
| ReqSetCrs (gdf : GeoDataFrame) (crs : CRS)
| ReqToCrs (gdf : GeoDataFrame) (dst : CRS)
| ReqSubplots (figsize : Z * Z)
| ReqPlotVector (gdf : GeoDataFrame) (kw : Kwargs)
| ReqAddBasemap (xlim ylim : float * float) (crs : CrsArg) (attribution : bool)
| ReqSetXlim (left right : float)
| ReqSetYlim (bottom top : float)
| ReqRasterOpen (p : Path)
| ReqShowRaster (src : DatasetReader) (kw : Kwargs)
| ReqTransformBounds (src : option CRS) (dst : string) (left bottom right top : float)
| ReqRasterClose (handle : nat).

(** A request and how it ended: [None] when it returned, [Some e] when it
    raised [e]. *)
Definition Entry : Type := (Request * option PyExc)%type.

Record State := mkState {
  (** pyplot's registry: the numbers of the figures not yet closed *)
  st_fignums : list nat;
  (** the raster handles that are open *)
  st_open : list nat;
  (** how many raster handles were ever opened *)
  st_handles : nat;
  (** the library requests so far, the latest first *)
  st_log : list Entry
}.

Definition empty_state : State := mkState [] [] 0 [].

(* ================================================================== *)
(** ** The monad of the embedding: state and exceptions *)

Definition M (A : Type) : Type := State -> (Raised + A) * State.

Definition ret {A} (a : A) : M A := fun s => (inr a, s).

Definition bind {A B} (c : M A) (k : A -> M B) : M B :=
  fun s =>
    match c s with
    | (inl e, s') => (inl e, s')
    | (inr a, s') => k a s'
    end.

(** A [raise] statement of the function itself. *)
Definition raise {A} (e : PyExc) : M A := fun s => (inl (Own e), s).

Notation "x <- c ;; k" := (bind c (fun x => k))
  (at level 61, c at next level, right associativity).
Notation "' pat <- c ;; k" := (bind c (fun x => match x with pat => k end))
  (at level 61, pat pattern, c at next level, right associativity).

Definition log (q : Request) (o : option PyExc) (s : State) : State :=
  mkState (st_fignums s) (st_open s) (st_handles s) ((q, o) :: st_log s).

(** A library call: the request is logged with its outcome; an exception
    leaves the call as it is, no handler in between. *)
Definition call {A} (q : Request) (r : result A) : M A :=
  fun s =>
    match r with
    | inl e => (inl (FromLibrary e), log q (Some e) s)
    | inr a => (inr a, log q None s)
    end.

(** The entries a run added to the log, the latest first. *)
Definition requests_of (before after : State) (l : list Entry) : Prop :=
  st_log after = (l ++ st_log before)%list.

(* ================================================================== *)
(** ** The library calls the function makes *)

Section Library.

Variable w : World.

(** [path.exists()]: the function's own look at the file system. When it
    answers, the log of library requests is left as it is; when it raises,
    the exception leaves the function like that of any library call, and
    is logged as one. *)
Definition path_exists (path : Path) : M bool :=
  fun s =>
    match w_exists w path with
    | inl e => (inl (FromLibrary e), log (ReqExists path) (Some e) s)
    | inr found => (inr found, s)
    end.

(** [gpd.read_file(path)] *)
Definition gpd_read_file (path : Path) : M GeoDataFrame :=
  call (ReqReadFile path) (w_read_file w path).

(** [gdf.set_crs(epsg=...)]: declares the reference system of data that
    has none, without moving a coordinate; a different system already
    set is refused. *)
Definition set_crs_result (gdf : GeoDataFrame) (c : CRS) : result GeoDataFrame :=
  match gdf_crs gdf with
  | None => inr (mkGdf (gdf_features gdf) (Some c))
  | Some c0 =>
      if CRS_eqb c0 c then inr gdf
      else inl (ValueError "The GeoSeries already has a CRS which is not equal to the passed CRS.")
  end.

Definition gdf_set_crs (gdf : GeoDataFrame) (c : CRS) : M GeoDataFrame :=
  call (ReqSetCrs gdf c) (set_crs_result gdf c).

(** [gdf.to_crs(epsg=...)]: data without a reference system is refused,
    data already in the target system is returned as it is, anything
    else goes through the projection engine. *)
Definition to_crs_result (gdf : GeoDataFrame) (dst : CRS) : result GeoDataFrame :=
  match gdf_crs gdf with
  | None => inl (ValueError "Cannot transform naive geometries.  Please set a crs on the object first.")
  | Some c =>
      if CRS_eqb c dst then inr gdf
      else match w_transform w c dst (gdf_features gdf) with
           | inl e => inl e
           | inr fs => inr (mkGdf fs (Some dst))
           end
  end.

Definition gdf_to_crs (gdf : GeoDataFrame) (dst : CRS) : M GeoDataFrame :=
  call (ReqToCrs gdf dst) (to_crs_result gdf dst).

(** [gdf.total_bounds] *)
Definition total_bounds (gdf : GeoDataFrame) : BBox :=
  w_total_bounds w (gdf_features gdf).

(** pyplot registers the new figure under the next free number. *)
Definition register_figure : M nat :=
  fun s =>
    let n := next_fignum (st_fignums s) in
    (inr n, mkState (n :: st_fignums s) (st_open s) (st_handles s) (st_log s)).

(** [plt.subplots(figsize=figsize)]: a new registered figure with one
    frame. *)
Definition plt_subplots (figsize : Z * Z) : M (nat * Axes) :=
  _ <- call (ReqSubplots figsize) (w_subplots w figsize) ;;
  n <- register_figure ;;
  ret (n, new_axes subplot_position true).

(** [gdf.plot(ax=ax, **layer_kwargs)] *)
Definition gdf_plot (gdf : GeoDataFrame) (ax : Axes) (kw : Kwargs) : M Axes :=
  d <- call (ReqPlotVector gdf kw) (w_gdf_plot w gdf kw) ;;
  ret (draw_into ax d).

(** [cx.add_basemap(ax, crs=..., source=..., attribution=...)]: tiles
    for the frame's current extent are fetched and drawn into it; with
    the default [reset_extent=True] the extent is what it was. *)
Definition cx_add_basemap (ax : Axes) (crs : CrsArg) (attribution : bool) : M Axes :=
  arts <- call (ReqAddBasemap (ax_xlim ax) (ax_ylim ax) crs attribution)
               (w_add_basemap w (ax_xlim ax) (ax_ylim ax) crs attribution) ;;
  ret (add_artists ax arts).

(** [ax.set_xlim(left, right)], [ax.set_ylim(bottom, top)] *)
Definition set_xlim (ax : Axes) (left right : float) : M Axes :=
  lim <- call (ReqSetXlim left right) (Mpl.set_lim left right) ;;
  ret (with_xlim ax lim).

Definition set_ylim (ax : Axes) (bottom top : float) : M Axes :=
  lim <- call (ReqSetYlim bottom top) (Mpl.set_lim bottom top) ;;
  ret (with_ylim ax lim).

(** The handle of a dataset just opened joins the open ones. *)
Definition new_handle (d : RasterData) : M DatasetReader :=
  fun s =>
    let h := st_handles s in
    (inr (mkDataset h d),
     mkState (st_fignums s) (h :: st_open s) (S h) (st_log s)).

(** [rasterio.open(path)] *)
Definition rasterio_open (path : Path) : M DatasetReader :=
  d <- call (ReqRasterOpen path) (w_rasterio_open w path) ;;
  new_handle d.

(** [show_raster(src, ax=ax, **layer_kwargs)] *)
Definition show_raster (src : DatasetReader) (ax : Axes) (kw : Kwargs) : M Axes :=
  d <- call (ReqShowRaster src kw) (w_show_raster w (ds_data src) kw) ;;
  ret (draw_into ax d).

(** [transform_bounds(src_crs, dst_crs, left, bottom, right, top)] *)
Definition transform_bounds (src_crs : option CRS) (dst_crs : string)
           (left bottom right top : float) : M BBox :=
  call (ReqTransformBounds src_crs dst_crs left bottom right top)
       (w_transform_bounds w src_crs dst_crs left bottom right top).

Fixpoint remove_first (h : nat) (l : list nat) : list nat :=
  match l with
  | [] => []
  | x :: rest => if Nat.eqb x h then rest else x :: remove_first h rest
  end.

Definition release_handle (h : nat) : M unit :=
  fun s =>
    (inr tt,
     mkState (st_fignums s) (remove_first h (st_open s)) (st_handles s) (st_log s)).

(** [src.close()] *)
Definition src_close (src : DatasetReader) : M unit :=
  _ <- call (ReqRasterClose (ds_handle src)) (inr tt) ;;
  release_handle (ds_handle src).

End Library.

(** [b[i]] on a 4-tuple of bounds. *)
Definition item (b : BBox) (i : nat) : float :=
  let '(b0, b1, b2, b3) := b in
  match i with
  | 0 => b0
  | 1 => b1
  | 2 => b2
  | _ => b3
  end.

(* ================================================================== *)
(** ** The source: loaders and [show_on_basemap] *)

Section Source.

Variable w : World.

(** [def _load_vector(path)] (source lines 24-36) *)
Definition _load_vector (path : Path) : M GeoDataFrame :=
  gdf <- gpd_read_file w path ;;
  gdf <- match gdf_crs gdf with
         | None => gdf_set_crs gdf (EPSG 4326)
         | Some _ => ret gdf
         end ;;
  gdf_3857 <- gdf_to_crs w gdf (EPSG 3857) ;;
  ret gdf_3857.

(** [def _load_raster(path)] (source lines 38-47) *)
Definition _load_raster (path : Path) : M DatasetReader :=
  src <- rasterio_open w path ;;
  ret src.

Definition unsupported_message (path : Path) : string :=
  "Filetype '" ++ suffix path ++ "' not recognized. "
  ++ "Supported vectors: .shp .geojson .json .gpkg .fgb; "
  ++ "Supported rasters: .tif .tiff .geotiff".

Definition not_found_message (path : Path) : string :=
  "Could not find " ++ str path ++ ".".

(** [layer_kwargs or {}] *)
Definition or_empty (layer_kwargs : option Kwargs) : Kwargs :=
  match layer_kwargs with
  | None => []
  | Some [] => []
  | Some kw => kw
  end.

(** The [if _is_vector(path):] branch (source lines 104-128). *)
Definition vector_branch (path : Path) (layer_kwargs : Kwargs)
           (figsize : Z * Z) (add_attribution : bool) : M (Figure * Axes) :=
  gdf <- _load_vector path ;;
  ' (fig, ax) <- plt_subplots w figsize ;;
  ax <- gdf_plot w gdf ax layer_kwargs ;;
  ax <- cx_add_basemap w ax (CrsObject (gdf_crs gdf)) add_attribution ;;
  ax <- set_xlim ax (item (total_bounds w gdf) 0) (item (total_bounds w gdf) 2) ;;
  ax <- set_ylim ax (item (total_bounds w gdf) 1) (item (total_bounds w gdf) 3) ;;
  let ax := set_xlabel ax "Web Mercator X (meters)" in
  let ax := set_ylabel ax "Web Mercator Y (meters)" in
  ret (mkFigure fig figsize [ax], ax).

(** The [elif _is_raster(path):] branch (source lines 130-170). *)
Definition raster_branch (path : Path) (layer_kwargs : Kwargs)
           (figsize : Z * Z) (add_attribution : bool) : M (Figure * Axes) :=
  src <- _load_raster path ;;
  ' (fig, ax) <- plt_subplots w figsize ;;
  ax <- show_raster w src ax layer_kwargs ;;
  let raster_crs := rd_crs (ds_data src) in
  let '(left_, bottom, right_, top) := rd_bounds (ds_data src) in
  b3857 <- transform_bounds w raster_crs "EPSG: 3857" left_ bottom right_ top ;;
  let ax_basemap := new_axes (ax_position ax) false in
  ax_basemap <- set_xlim ax_basemap (item b3857 0) (item b3857 2) ;;
  ax_basemap <- set_ylim ax_basemap (item b3857 1) (item b3857 3) ;;
  ax_basemap <- cx_add_basemap w ax_basemap (CrsString "EPSG: 3857") add_attribution ;;
  let ax := set_zorder ax 2 in
  let ax := patch_set_alpha ax 0 in
  _ <- src_close src ;;
  ret (mkFigure fig figsize [ax; ax_basemap], ax).

(** [def show_on_basemap(data_path, layer_kwargs=None, figsize=(10, 10),
    add_attribution=True)] (source lines 61-177) *)
Definition show_on_basemap (data_path : PathArg) (layer_kwargs : option Kwargs)
           (figsize : Z * Z) (add_attribution : bool) : M (Figure * Axes) :=
  let path := Path_of data_path in
  found <- path_exists w path ;;
  if negb found then
    raise (FileNotFoundError (not_found_message path))
  else
    let layer_kwargs := or_empty layer_kwargs in
    if _is_vector path then
      vector_branch path layer_kwargs figsize add_attribution
    else if _is_raster path then
      raster_branch path layer_kwargs figsize add_attribution
    else
      raise (ValueError (unsupported_message path)).

End Source.

(** What the library answers to a request: the exception it raises, or
    [None] when it returns. *)
Definition error_of {A} (r : result A) : option PyExc :=
  match r with
  | inl e => Some e
  | inr _ => None
  end.

Definition outcome (w : World) (q : Request) : option PyExc :=
  match q with
  | ReqExists p => error_of (w_exists w p)
  | ReqReadFile p => error_of (w_read_file w p)
  | ReqSetCrs gdf c => error_of (set_crs_result gdf c)
  | ReqToCrs gdf dst => error_of (to_crs_result w gdf dst)
  | ReqSubplots fs => error_of (w_subplots w fs)
  | ReqPlotVector gdf kw => error_of (w_gdf_plot w gdf kw)
  | ReqAddBasemap xl yl crs a => error_of (w_add_basemap w xl yl crs a)
  | ReqSetXlim l r => error_of (Mpl.set_lim l r)
  | ReqSetYlim b t => error_of (Mpl.set_lim b t)
  | ReqRasterOpen p => error_of (w_rasterio_open w p)
  | ReqShowRaster src kw => error_of (w_show_raster w (ds_data src) kw)
  | ReqTransformBounds c d l b r t => error_of (w_transform_bounds w c d l b r t)
  | ReqRasterClose _ => None
  end.

(** The raster's bounds as the raster branch has them transformed. *)
Definition bounds_3857 (w : World) (d : RasterData) : result BBox :=
  let '(left_, bottom, right_, top) := rd_bounds d in
  w_transform_bounds w (rd_crs d) "EPSG: 3857" left_ bottom right_ top.

(** The two parts of a result that do not name a registry number. *)
Definition forget_number (r : Raised + Figure * Axes) : Raised + Figure * Axes :=
  match r with
  | inr (fig, ax) => inr (mkFigure 0 (fig_figsize fig) (fig_axes fig), ax)
  | inl e => inl e
  end.

(* ================================================================== *)
(** ** Vocabulary of the properties *)

(** A log that only grew. *)
Definition extends (before after : list Entry) : Prop :=
  exists l, after = (l ++ before)%list.

(** The reference system the loader reprojects from: the one of the
    source, EPSG:4326 when the source declares none. *)
Definition assumed_crs (src : GeoDataFrame) : CRS :=
  match gdf_crs src with
  | Some c => c
  | None => EPSG 4326
  end.

(** The frame the tiles are drawn into, as the raster branch builds it. *)
Definition basemap_frame (xl yl : float * float) (arts : list Artist) : Axes :=
  add_artists (with_ylim (with_xlim (new_axes subplot_position false) xl) yl) arts.

(** The frame the raster is drawn into, as the raster branch leaves it. *)
Definition data_frame (de : DrawEffect) : Axes :=
  patch_set_alpha (set_zorder (draw_into (new_axes subplot_position true) de) 2) 0.

(** Requests that close a raster. *)
Definition is_close (x : Entry) : bool :=
  match fst x with
  | ReqRasterClose _ => true
  | _ => false
  end.

(** [after] is [before], then the opening of [path], then requests none
    of which closes a raster. *)
Definition open_not_closed (path : Path) (before after : list Entry) : Prop :=
  exists mid, after = (mid ++ (ReqRasterOpen path, None) :: before)%list
              /\ forallb (fun x => negb (is_close x)) mid = true.

(** Every request added to the log returned normally, as the world
    answers it. *)
Definition clean (w : World) (before after : list Entry) : Prop :=
  exists added,
    after = (added ++ before)%list
    /\ forall q o, In (q, o) added -> o = None /\ outcome w q = None.

(* ================================================================== *)
(** ** A sample world

    A directory with a single-point GeoJSON file that declares no
    reference system, a shapefile of two points in EPSG:4326, a GeoTIFF
    in EPSG:4326, a GeoTIFF in EPSG:3857 whose transform has a zero pixel
    width, a text file, and a file without extension. *)

Module Sample.

Local Open Scope float_scope.

Definition files : list string :=
  ["data/point.geojson"; "data/towns.shp"; "data/landcover.tif";
   "data/flat.TIF"; "data/notes.xyz"; "data/README"; "data/backup.tar.json"].

Definition point : GeoDataFrame :=
  mkGdf [mkFeature [(10, 20)] [("name", "A")]] None.

Definition towns : GeoDataFrame :=
  mkGdf [mkFeature [(0, 0)] [("name", "B")];
         mkFeature [(10, 20)] [("name", "C")]] (Some (EPSG 4326)).

Definition landcover : RasterData :=
  mkRaster [[1; 2]; [3; 4]] (5, 0, 0, 0, -10, 20) (Some (EPSG 4326)) (0, 0, 10, 20).

Definition flat : RasterData :=
  mkRaster [[1; 2]; [3; 4]] (0, 0, 500000, 0, -150, 4000300) (Some (EPSG 3857))
           (500000, 4000000, 500000, 4000300).

(** Web Mercator of a longitude/latitude pair, for the latitudes of the
    sample data. *)
Definition mercator (p : float * float) : option (float * float) :=
  let '(lon, lat) := p in
  if lat =? 0 then Some (lon * 111319.49079327357, 0)
  else if lat =? 20 then Some (lon * 111319.49079327357, 2273030.926987689)
  else None.

Fixpoint mercator_all (l : list (float * float)) : option (list (float * float)) :=
  match l with
  | [] => Some []
  | p :: rest =>
      match mercator p, mercator_all rest with
      | Some q, Some qs => Some (q :: qs)
      | _, _ => None
      end
  end.

Fixpoint project (fs : list Feature) : result (list Feature) :=
  match fs with
  | [] => inr []
  | f :: rest =>
      match mercator_all (ft_geometry f), project rest with
      | Some g, inr gs => inr (mkFeature g (ft_attributes f) :: gs)
      | _, inl e => inl e
      | None, _ => inl (mkExc "ProjError" "point outside the projection's domain")
      end
  end.

Definition fmin (a b : float) : float := if b <? a then b else a.
Definition fmax (a b : float) : float := if a <? b then b else a.

Definition bounds_of (fs : list Feature) : BBox :=
  match List.concat (List.map ft_geometry fs) with
  | [] => (nan, nan, nan, nan)
  | (x, y) :: rest =>
      fold_left (fun (acc : BBox) (p : float * float) =>
                   let '(a, b, c, d) := acc in
                   (fmin a (fst p), fmin b (snd p), fmax c (fst p), fmax d (snd p)))
                rest (x, y, x, y)
  end.

Definition world : World :=
  mkWorld
    (fun p => if PyStr.mem (str p) files then StatFound
              else StatOSError 2 (FileNotFoundError "[Errno 2] No such file or directory"))
    (fun p =>
       if String.eqb (str p) "data/point.geojson" then inr point
       else if String.eqb (str p) "data/towns.shp" then inr towns
       else inl (mkExc "DataSourceError" "not recognized as being in a supported file format"))
    (fun src dst fs =>
       if CRS_eqb src (EPSG 4326) && CRS_eqb dst (EPSG 3857) then project fs
       else inl (mkExc "ProjError" "no transformation available"))
    bounds_of
    (fun _ => inr tt)
    (fun gdf _ => inr (mkDraw ["PathCollection"] (0, 1) (0, 1)))
    (fun _ _ _ attribution =>
       inr (if attribution then ["AxesImage"; "Text"] else ["AxesImage"]))
    (fun p =>
       if String.eqb (str p) "data/landcover.tif" then inr landcover
       else if String.eqb (str p) "data/flat.TIF" then inr flat
       else inl (mkExc "RasterioIOError" "not recognized as being in a supported file format"))
    (fun d _ =>
       let '(l, b, r, t) := rd_bounds d in
       inr (mkDraw ["AxesImage"] (l, r) (b, t)))
    (fun src dst l b r t =>
       match src with
       | Some (EPSG 3857) => inr (l, b, r, t)
       | Some (EPSG 4326) =>
           match mercator (l, b), mercator (r, t) with
           | Some (x0, y0), Some (x1, y1) => inr (x0, y0, x1, y1)
           | _, _ => inl (mkExc "CRSError" "bounds outside the projection's domain")
           end
       | _ => inl (mkExc "CRSError" "missing or unknown source reference system")
       end).

(** The same directory with the tile server out of reach. *)
Definition offline : World :=
  mkWorld (w_stat world) (w_read_file world) (w_transform world)
          (w_total_bounds world) (w_subplots world) (w_gdf_plot world)
          (fun _ _ _ _ => inl (mkExc "ConnectionError" "tile server unreachable"))
          (w_rasterio_open world) (w_show_raster world)
          (w_transform_bounds world).

Definition run (w : World) (file : string) (s : State) :=
  show_on_basemap w (ArgStr file) None (10, 10)%Z true s.

End Sample.

(* ================================================================== *)
(** ** Vocabulary of the further properties *)

(** The requests only the raster branch makes. *)
Definition is_raster_request (q : Request) : bool :=
  match q with
  | ReqRasterOpen _ | ReqShowRaster _ _ | ReqTransformBounds _ _ _ _ _ _
  | ReqRasterClose _ => true
  | _ => false
  end.

(** The requests only the vector branch makes. *)
Definition is_vector_request (q : Request) : bool :=
  match q with
  | ReqReadFile _ | ReqSetCrs _ _ | ReqToCrs _ _ | ReqPlotVector _ _ => true
  | _ => false
  end.

(** [after] is [added] on top of [before]. *)
Definition grows_by (before after added : list Entry) : Prop :=
  after = (added ++ before)%list.

(** The entry of a [plt.subplots] that returned. *)
Definition figure_created (x : Entry) : bool :=
  match x with
  | (ReqSubplots _, None) => true
  | _ => false
  end.

(** The sample directory with two more files: a GeoJSON file without
    features and a hidden file named [.shp]. *)
Module Sample2.

Definition empty : GeoDataFrame := mkGdf [] (Some (EPSG 4326)).

Definition empty_3857 : GeoDataFrame := mkGdf [] (Some (EPSG 3857)).

Definition world : World :=
  mkWorld
    (fun p => if PyStr.mem (str p) ("data/empty.geojson" :: "data/.shp" :: Sample.files)
              then StatFound
              else StatOSError 2 (FileNotFoundError "[Errno 2] No such file or directory"))
    (fun p =>
       if String.eqb (str p) "data/empty.geojson" then inr empty
       else w_read_file Sample.world p)
    (w_transform Sample.world) (w_total_bounds Sample.world)
    (w_subplots Sample.world) (w_gdf_plot Sample.world)
    (w_add_basemap Sample.world) (w_rasterio_open Sample.world)
    (w_show_raster Sample.world) (w_transform_bounds Sample.world).

(** A directory whose shapefile is in EPSG:3857 already, with no
    projection engine at hand. *)
Definition web_mercator : World :=
  mkWorld (w_stat Sample.world)
          (fun _ => inr (mkGdf (gdf_features Sample.towns) (Some (EPSG 3857))))
          (fun _ _ _ => inl (mkExc "ProjError" "engine not available"))
          (w_total_bounds Sample.world) (w_subplots Sample.world)
          (w_gdf_plot Sample.world) (w_add_basemap Sample.world)
          (w_rasterio_open Sample.world) (w_show_raster Sample.world)
          (w_transform_bounds Sample.world).

(** The directory of [Sample.world] on a file system whose names hold at
    most 255 bytes: [os.stat] on a path with a longer final component
    fails with ENAMETOOLONG (errno 36), whatever the directory holds. *)
Definition name_max : nat := 255.

Definition name_too_long : PyExc := mkExc "OSError" "[Errno 36] File name too long".

Fixpoint stutter (n : nat) (c : string) : string :=
  match n with
  | O => ""
  | S n' => c ++ stutter n' c
  end.

Definition long_name : string := "data/" ++ stutter 300 "x" ++ ".tif".

Definition bounded_names : World :=
  mkWorld
    (fun p => if (name_max <? String.length (name p))%nat
              then StatOSError 36 name_too_long
              else w_stat Sample.world p)
    (w_read_file Sample.world)
    (w_transform Sample.world) (w_total_bounds Sample.world)
    (w_subplots Sample.world) (w_gdf_plot Sample.world)
    (w_add_basemap Sample.world) (w_rasterio_open Sample.world)
    (w_show_raster Sample.world) (w_transform_bounds Sample.world).

End Sample2.

(* ================================================================== *)
(** * Properties *)

(** ** Strings and suffixes *)

Section StringFacts.

Lemma str_app_assoc (a b c : string) : (a ++ b) ++ c = a ++ (b ++ c).
Proof. induction a as [|x a IH]; simpl; [reflexivity | now rewrite IH]. Qed.

Lemma str_app_length (a b : string) :
  String.length (a ++ b) = (String.length a + String.length b)%nat.
Proof. induction a as [|x a IH]; simpl; [reflexivity | now rewrite IH]. Qed.

Lemma contains_self_prefix (s post : string) : PyStr.contains (s ++ post) s.
Proof. exists "", post. reflexivity. Qed.

Lemma contains_after (pre t needle : string) :
  PyStr.contains t needle -> PyStr.contains (pre ++ t) needle.
Proof.
  intros (a & b & ->). exists (pre ++ a), b.
  now rewrite str_app_assoc.
Qed.

Lemma starts_with_sound (needle s : string) :
  PyStr.starts_with needle s = true -> exists post, s = needle ++ post.
Proof.
  revert s. induction needle as [|a n IH]; intros s H.
  - exists s. reflexivity.
  - destruct s as [|b t]; simpl in H; [discriminate|].
    apply andb_true_iff in H as [Hab Hn].
    apply Ascii.eqb_eq in Hab. subst b.
    destruct (IH _ Hn) as [post ->]. exists post. reflexivity.
Qed.

Lemma containsb_sound (s needle : string) :
  PyStr.containsb s needle = true -> PyStr.contains s needle.
Proof.
  induction s as [|c t IH]; simpl; intros H.
  - rewrite orb_false_r in H.
    destruct (starts_with_sound _ _ H) as [post E]. exists "", post. exact E.
  - apply orb_true_iff in H as [H|H].
    + destruct (starts_with_sound _ _ H) as [post E]. exists "", post. exact E.
    + destruct (IH H) as (a & b & ->). exists (String c a), b. reflexivity.
Qed.

Lemma mem_In (x : string) (l : list string) : PyStr.mem x l = true <-> In x l.
Proof.
  unfold PyStr.mem. rewrite existsb_exists. split.
  - intros (y & Hy & E). apply String.eqb_eq in E. now subst.
  - intros H. exists x. split; [assumption | apply String.eqb_refl].
Qed.

(** The extension literals are in lower case already. *)
Lemma extensions_lower (e : string) :
  In e (vector_extensions ++ raster_extensions)%list -> PyStr.lower e = e.
Proof.
  simpl. intros H.
  repeat (destruct H as [<-|H]; [reflexivity|]). contradiction.
Qed.

Lemma rfind_dot_after_stem (stem ext : string) :
  PyStr.rfind_dot ext = None ->
  PyStr.rfind_dot (stem ++ "." ++ ext) = Some (String.length stem).
Proof.
  intros Hext. induction stem as [|c t IH]; simpl.
  - now rewrite Hext.
  - simpl in IH. now rewrite IH.
Qed.

Lemma drop_stem (stem rest : string) :
  PyStr.drop (String.length stem) (stem ++ rest) = rest.
Proof. induction stem as [|c t IH]; simpl; [now destruct rest | exact IH]. Qed.

(** Only what follows the last dot of the name counts. *)
Lemma suffix_of_dotted_name (stem ext : string) :
  stem <> "" -> ext <> "" -> PyStr.rfind_dot ext = None ->
  suffix_of_name (stem ++ "." ++ ext) = "." ++ ext.
Proof.
  intros Hs He Hdot. unfold suffix_of_name.
  rewrite (rfind_dot_after_stem _ _ Hdot).
  rewrite str_app_length. simpl String.length.
  destruct stem as [|c t]; [congruence|].
  destruct ext as [|d u]; [congruence|].
  simpl String.length.
  replace ((0 <? S (String.length t))%nat) with true
    by (symmetry; apply Nat.ltb_lt; lia).
  replace ((S (String.length t) <? S (String.length t) + S (S (String.length u)) - 1)%nat)
    with true by (symmetry; apply Nat.ltb_lt; lia).
  simpl andb. cbv iota.
  exact (drop_stem (String c t) ("." ++ String d u)).
Qed.

End StringFacts.

(** ** The dispatcher inside [show_on_basemap] *)

Section Dispatch.

Variable w : World.
Variables (data_path : PathArg) (kw : option Kwargs) (figsize : Z * Z) (attr : bool).

Let path := Path_of data_path.

Lemma is_vector_iff :
  _is_vector path = true <-> In (PyStr.lower (suffix path)) vector_extensions.
Proof. apply mem_In. Qed.

Lemma is_raster_iff :
  _is_raster path = true <-> In (PyStr.lower (suffix path)) raster_extensions.
Proof. apply mem_In. Qed.

(** The two extension sets have no element in common. *)
Lemma extensions_disjoint (e : string) :
  In e vector_extensions -> ~ In e raster_extensions.
Proof.
  simpl. intros Hv Hr.
  repeat (destruct Hv as [<-|Hv];
          [repeat (destruct Hr as [Hr|Hr]; [discriminate Hr|]); contradiction|]).
  contradiction.
Qed.

Lemma not_both : _is_vector path && _is_raster path = false.
Proof.
  destruct (_is_vector path) eqn:Hv; [|reflexivity].
  destruct (_is_raster path) eqn:Hr; [|reflexivity].
  exfalso. apply is_vector_iff in Hv. apply is_raster_iff in Hr.
  exact (extensions_disjoint _ Hv Hr).
Qed.

Lemma run_missing (s : State) :
  w_exists w path = inr false ->
  show_on_basemap w data_path kw figsize attr s
  = (inl (Own (FileNotFoundError (not_found_message path))), s).
Proof.
  intros H. unfold show_on_basemap, bind, path_exists. fold path. now rewrite H.
Qed.

Lemma run_exists_error (s : State) (e : PyExc) :
  w_exists w path = inl e ->
  show_on_basemap w data_path kw figsize attr s
  = (inl (FromLibrary e), log (ReqExists path) (Some e) s).
Proof.
  intros H. unfold show_on_basemap, bind, path_exists. fold path. now rewrite H.
Qed.

Lemma run_vector (s : State) :
  w_exists w path = inr true -> _is_vector path = true ->
  show_on_basemap w data_path kw figsize attr s
  = vector_branch w path (or_empty kw) figsize attr s.
Proof.
  intros H Hv. unfold show_on_basemap, bind, path_exists. fold path.
  now rewrite H, Hv.
Qed.

Lemma run_raster (s : State) :
  w_exists w path = inr true -> _is_vector path = false -> _is_raster path = true ->
  show_on_basemap w data_path kw figsize attr s
  = raster_branch w path (or_empty kw) figsize attr s.
Proof.
  intros H Hv Hr. unfold show_on_basemap, bind, path_exists. fold path.
  now rewrite H, Hv, Hr.
Qed.

Lemma run_unsupported (s : State) :
  w_exists w path = inr true -> _is_vector path = false -> _is_raster path = false ->
  show_on_basemap w data_path kw figsize attr s
  = (inl (Own (ValueError (unsupported_message path))), s).
Proof.
  intros H Hv Hr. unfold show_on_basemap, bind, path_exists. fold path.
  now rewrite H, Hv, Hr.
Qed.

(** A call that returns has found the path. *)
Lemma run_returns_found (s s' : State) (v : Figure * Axes) :
  show_on_basemap w data_path kw figsize attr s = (inr v, s') ->
  w_exists w path = inr true.
Proof.
  intros H. destruct (w_exists w path) as [e|[|]] eqn:Hex; [| reflexivity |].
  - rewrite (run_exists_error s e Hex) in H. discriminate.
  - rewrite (run_missing s Hex) in H. discriminate.
Qed.

(** What the message of the unsupported-extension error holds. *)
Lemma unsupported_message_contents :
  PyStr.contains (unsupported_message path) "not recognized"
  /\ PyStr.contains (unsupported_message path) (suffix path)
  /\ (forall e, In e (vector_extensions ++ raster_extensions)%list ->
                PyStr.contains (unsupported_message path) e).
Proof.
  unfold unsupported_message. repeat split.
  - apply contains_after, contains_after.
    apply containsb_sound. reflexivity.
  - apply contains_after, contains_self_prefix.
  - intros e He. apply contains_after, contains_after.
    apply containsb_sound. simpl in He.
    repeat (destruct He as [<-|He]; [reflexivity|]). contradiction.
Qed.

End Dispatch.

(** ** C1, C2, C10: dispatch on the extension and the two guard errors *)

(** C1. A path whose final extension equals, case-insensitively, one of
    .shp .geojson .json .gpkg .fgb is classified as vector and, when it
    exists, handled by the vector branch; one of .tif .tiff .geotiff is
    classified as raster and handled by the raster branch; an existing
    path with any other extension makes the call fail, before any library
    request, with a [ValueError] whose message contains "not recognized",
    the extension itself and every supported extension. *)
Theorem dispatch_by_extension :
  forall (w : World) (data_path : PathArg) (kw : option Kwargs)
         (figsize : Z * Z) (attr : bool) (s : State),
    let path := Path_of data_path in
    (forall e, In e vector_extensions ->
               PyStr.lower (suffix path) = PyStr.lower e ->
               classify path = Vector
               /\ (w_exists w path = inr true ->
                   show_on_basemap w data_path kw figsize attr s
                   = vector_branch w path (or_empty kw) figsize attr s))
    /\ (forall e, In e raster_extensions ->
                  PyStr.lower (suffix path) = PyStr.lower e ->
                  classify path = Raster
                  /\ (w_exists w path = inr true ->
                      show_on_basemap w data_path kw figsize attr s
                      = raster_branch w path (or_empty kw) figsize attr s))
    /\ ((forall e, In e (vector_extensions ++ raster_extensions)%list ->
                   PyStr.lower (suffix path) <> PyStr.lower e) ->
        w_exists w path = inr true ->
        classify path = Unsupported
        /\ show_on_basemap w data_path kw figsize attr s
           = (inl (Own (ValueError (unsupported_message path))), s)
        /\ PyStr.contains (unsupported_message path) "not recognized"
        /\ PyStr.contains (unsupported_message path) (suffix path)
        /\ (forall e, In e (vector_extensions ++ raster_extensions)%list ->
                      PyStr.contains (unsupported_message path) e)).
Proof.
  intros w data_path kw figsize attr s path.
  split; [|split].
  - intros e He Heq.
    assert (Hv : _is_vector path = true).
    { apply mem_In. rewrite Heq, extensions_lower; [exact He|].
      apply in_or_app. now left. }
    split.
    + unfold classify. now rewrite Hv.
    + intros Hex. now apply run_vector.
  - intros e He Heq.
    assert (Hr : _is_raster path = true).
    { apply mem_In. rewrite Heq, extensions_lower; [exact He|].
      apply in_or_app. now right. }
    assert (Hv : _is_vector path = false).
    { pose proof (not_both data_path) as Hnb. fold path in Hnb.
      rewrite Hr, andb_true_r in Hnb. exact Hnb. }
    split.
    + unfold classify. now rewrite Hv, Hr.
    + intros Hex. now apply run_raster.
  - intros Hnone Hex.
    assert (Hv : _is_vector path = false).
    { destruct (_is_vector path) eqn:E; [|reflexivity]. exfalso.
      apply mem_In in E.
      apply (Hnone (PyStr.lower (suffix path))); [apply in_or_app; now left|].
      symmetry. apply extensions_lower, in_or_app. now left. }
    assert (Hr : _is_raster path = false).
    { destruct (_is_raster path) eqn:E; [|reflexivity]. exfalso.
      apply mem_In in E.
      apply (Hnone (PyStr.lower (suffix path))); [apply in_or_app; now right|].
      symmetry. apply extensions_lower, in_or_app. now right. }
    split; [unfold classify; now rewrite Hv, Hr|].
    split; [now apply run_unsupported|].
    apply unsupported_message_contents.
Qed.

Lemma dispatch_by_extension_witness :
  classify (parse "data/towns.SHP") = Vector
  /\ classify (parse "data/flat.TIF") = Raster
  /\ Sample.run Sample.world "data/notes.xyz" empty_state
     = (inl (Own (ValueError
          "Filetype '.xyz' not recognized. Supported vectors: .shp .geojson .json .gpkg .fgb; Supported rasters: .tif .tiff .geotiff")),
        empty_state).
Proof.
  split; [|split].
  - destruct (dispatch_by_extension Sample.world (ArgStr "data/towns.SHP") None
                (10, 10)%Z true empty_state) as (Hv & _ & _).
    apply (Hv ".shp"); [simpl; tauto | reflexivity].
  - destruct (dispatch_by_extension Sample.world (ArgStr "data/flat.TIF") None
                (10, 10)%Z true empty_state) as (_ & Hr & _).
    apply (Hr ".tif"); [simpl; tauto | reflexivity].
  - destruct (dispatch_by_extension Sample.world (ArgStr "data/notes.xyz") None
                (10, 10)%Z true empty_state) as (_ & _ & Hu).
    apply Hu; [|reflexivity].
    intros e He. simpl in He.
    repeat (destruct He as [<-|He]; [discriminate|]). contradiction.
Defined.

(** Membership in the errnos that [Path.exists] takes for an absence. *)
Lemma ignored_errno_spec (errno : Z) :
  existsb (Z.eqb errno) ignored_errnos = true <-> In errno ignored_errnos.
Proof.
  rewrite existsb_exists. split.
  - intros (x & Hin & Heq). apply Z.eqb_eq in Heq. now subst.
  - intros Hin. exists errno. split; [exact Hin | apply Z.eqb_refl].
Qed.

(** C2, as amended. [Path.exists] answers [False] when [os.stat] fails
    with ENOENT, ENOTDIR, EBADF or ELOOP, or cannot encode the name; for
    such a path the call raises [FileNotFoundError] whatever the extension
    is, and nothing else has happened by then: no classification, no library
    request, the state is the one the call started in. When [os.stat] fails
    with any other [OSError], that error leaves the call instead, again
    before any classification and any library request: the failed check is
    all the call has done. A path that [os.stat] does not find ends in one
    of the two, never in a figure. *)
Theorem missing_file_first :
  forall (w : World) (data_path : PathArg) (kw : option Kwargs)
         (figsize : Z * Z) (attr : bool) (s : State),
    (w_exists w (Path_of data_path) = inr false ->
     show_on_basemap w data_path kw figsize attr s
     = (inl (Own (FileNotFoundError (not_found_message (Path_of data_path)))), s))
    /\ (forall errno e,
           w_stat w (Path_of data_path) = StatOSError errno e ->
           In errno ignored_errnos ->
           show_on_basemap w data_path kw figsize attr s
           = (inl (Own (FileNotFoundError (not_found_message (Path_of data_path)))), s))
    /\ (w_stat w (Path_of data_path) = StatValueError ->
        show_on_basemap w data_path kw figsize attr s
        = (inl (Own (FileNotFoundError (not_found_message (Path_of data_path)))), s))
    /\ (forall errno e,
           w_stat w (Path_of data_path) = StatOSError errno e ->
           ~ In errno ignored_errnos ->
           show_on_basemap w data_path kw figsize attr s
           = (inl (FromLibrary e), log (ReqExists (Path_of data_path)) (Some e) s))
    /\ (w_stat w (Path_of data_path) <> StatFound ->
        forall v s', show_on_basemap w data_path kw figsize attr s <> (inr v, s')).
Proof.
  intros w data_path kw figsize attr s.
  split; [now apply run_missing|].
  split; [|split; [|split]].
  - intros errno e Hstat Hin. apply run_missing.
    unfold w_exists. rewrite Hstat.
    now rewrite (proj2 (ignored_errno_spec errno) Hin).
  - intros Hstat. apply run_missing. unfold w_exists. now rewrite Hstat.
  - intros errno e Hstat Hin. apply run_exists_error.
    unfold w_exists. rewrite Hstat.
    destruct (existsb (Z.eqb errno) ignored_errnos) eqn:Hmem; [|reflexivity].
    exfalso. apply Hin. now apply ignored_errno_spec.
  - intros Hstat v s' Hrun.
    apply run_returns_found in Hrun. unfold w_exists in Hrun.
    destruct (w_stat w (Path_of data_path)) as [|errno e|]; [now apply Hstat| |discriminate].
    destruct (existsb (Z.eqb errno) ignored_errnos); discriminate.
Qed.

Lemma missing_file_first_witness :
  Sample.run Sample.world "data/missing.shp" empty_state
  = (inl (Own (FileNotFoundError "Could not find data/missing.shp.")), empty_state)
  /\ Sample.run Sample.world "data/missing.tif" empty_state
     = (inl (Own (FileNotFoundError "Could not find data/missing.tif.")), empty_state)
  /\ Sample.run Sample.world "data/missing.xyz" empty_state
     = (inl (Own (FileNotFoundError "Could not find data/missing.xyz.")), empty_state)
  /\ Sample.run Sample2.bounded_names Sample2.long_name empty_state
     = (inl (FromLibrary Sample2.name_too_long),
        log (ReqExists (parse Sample2.long_name)) (Some Sample2.name_too_long)
            empty_state)
  /\ (forall v s',
         Sample.run Sample.world "data/missing.shp" empty_state <> (inr v, s')).
Proof.
  split; [|split; [|split; [|split]]].
  - destruct (missing_file_first Sample.world (ArgStr "data/missing.shp") None
                (10, 10)%Z true empty_state) as (H & _).
    apply H. reflexivity.
  - destruct (missing_file_first Sample.world (ArgStr "data/missing.tif") None
                (10, 10)%Z true empty_state) as (_ & H & _).
    apply (H 2%Z (FileNotFoundError "[Errno 2] No such file or directory"));
      [reflexivity | simpl; tauto].
  - destruct (missing_file_first Sample.world (ArgStr "data/missing.xyz") None
                (10, 10)%Z true empty_state) as (H & _).
    apply H. reflexivity.
  - destruct (missing_file_first Sample2.bounded_names (ArgStr Sample2.long_name) None
                (10, 10)%Z true empty_state) as (_ & _ & _ & H & _).
    apply (H 36%Z Sample2.name_too_long); [vm_compute; reflexivity|].
    simpl. intros [H'|[H'|[H'|[H'|[]]]]]; discriminate H'.
  - destruct (missing_file_first Sample.world (ArgStr "data/missing.shp") None
                (10, 10)%Z true empty_state) as (_ & _ & _ & _ & H).
    apply H. vm_compute. discriminate.
Defined.

(** C2 as stated fails for a missing file whose name is longer than the
    file system allows: [os.stat] fails with ENAMETOOLONG, which
    [Path.exists] does not take for an absence, so the call ends in that
    [OSError] and not in the not-found error, although no such file
    exists. *)
Lemma missing_long_name_is_not_reported_missing :
  w_stat Sample2.bounded_names (parse Sample2.long_name)
  = StatOSError 36 Sample2.name_too_long
  /\ w_stat Sample2.bounded_names (parse Sample2.long_name) <> StatFound
  /\ fst (Sample.run Sample2.bounded_names Sample2.long_name empty_state)
     = inl (FromLibrary (mkExc "OSError" "[Errno 36] File name too long"))
  /\ (forall msg,
         fst (Sample.run Sample2.bounded_names Sample2.long_name empty_state)
         <> inl (Own (FileNotFoundError msg))).
Proof.
  split; [vm_compute; reflexivity|].
  split; [vm_compute; discriminate|].
  split; [vm_compute; reflexivity|].
  intros msg. vm_compute. discriminate.
Qed.

(** C10. The classification of a path is a function of its lower-cased
    suffix alone, and the suffix is what follows the last dot of the final
    component, so [backup.tar.json] is a vector file; no extension is in
    both sets, so a path is never both vector and raster; an existing path
    with an empty suffix ends in the unsupported-extension error. *)
Theorem classification_by_final_extension :
  forall (w : World) (p q : Path),
    (PyStr.lower (suffix p) = PyStr.lower (suffix q) ->
     _is_vector p = _is_vector q /\ _is_raster p = _is_raster q
     /\ classify p = classify q)
    /\ (forall stem ext,
           name p = stem ++ "." ++ ext ->
           stem <> "" -> ext <> "" -> PyStr.rfind_dot ext = None ->
           suffix p = "." ++ ext)
    /\ classify (parse "backup.tar.json") = Vector
    /\ (forall e, In e vector_extensions -> ~ In e raster_extensions)
    /\ _is_vector p && _is_raster p = false
    /\ (forall a kw figsize attr s,
           Path_of a = p -> w_exists w p = inr true -> suffix p = "" ->
           show_on_basemap w a kw figsize attr s
           = (inl (Own (ValueError (unsupported_message p))), s)).
Proof.
  intros w p q.
  split; [|split; [|split; [|split; [|split]]]].
  - intros H. unfold classify, _is_vector, _is_raster. now rewrite H.
  - intros stem ext Hname Hs He Hdot. unfold suffix. rewrite Hname.
    now apply suffix_of_dotted_name.
  - reflexivity.
  - intros e. apply extensions_disjoint.
  - exact (not_both (ArgPath p)).
  - intros a kw figsize attr s Ha Hex Hsuf. subst p.
    apply run_unsupported; [exact Hex | |].
    + unfold _is_vector. now rewrite Hsuf.
    + unfold _is_raster. now rewrite Hsuf.
Qed.

Lemma classification_by_final_extension_witness :
  classify (parse "x/backup.tar.JSON") = classify (parse "data/towns.json")
  /\ suffix (parse "data/backup.tar.json") = ".json"
  /\ Sample.run Sample.world "data/README" empty_state
     = (inl (Own (ValueError
          "Filetype '' not recognized. Supported vectors: .shp .geojson .json .gpkg .fgb; Supported rasters: .tif .tiff .geotiff")),
        empty_state).
Proof.
  destruct (classification_by_final_extension Sample.world
              (parse "x/backup.tar.JSON") (parse "data/towns.json"))
    as (Hsame & _).
  destruct (classification_by_final_extension Sample.world
              (parse "data/backup.tar.json") (parse "data/backup.tar.json"))
    as (_ & Hdot & _).
  destruct (classification_by_final_extension Sample.world
              (parse "data/README") (parse "data/README"))
    as (_ & _ & _ & _ & _ & Hempty).
  split; [|split].
  - apply Hsame. reflexivity.
  - apply (Hdot "backup.tar" "json"); [reflexivity | discriminate | discriminate | reflexivity].
  - apply (Hempty (ArgStr "data/README")); reflexivity.
Defined.

(* ================================================================== *)
(** ** View limits *)


(** Limits that are not finite are refused. *)
Lemma set_lim_finite (v0 v1 : float) (lim : float * float) :
  Mpl.set_lim v0 v1 = inr lim -> is_finite v0 = true /\ is_finite v1 = true.
Proof.
  unfold Mpl.set_lim.
  destruct (is_finite v0), (is_finite v1); simpl; try discriminate. now split.
Qed.

(* ================================================================== *)
(** ** Running the branches *)

(** Unfolds one level of the embedding's monad and of the library calls,
    leaving the loaders, the world's answers and [Mpl.set_lim] folded. *)
Ltac unfold_calls :=
  cbv beta iota zeta delta
      [vector_branch raster_branch _load_raster
       plt_subplots register_figure gdf_plot cx_add_basemap set_xlim set_ylim
       rasterio_open new_handle show_raster transform_bounds src_close
       release_handle gpd_read_file gdf_set_crs gdf_to_crs
       bind call ret raise log bounds_3857];
  cbn [st_fignums st_open st_handles st_log ds_data ds_handle].

(** The answer the evaluation of [t] waits for: the scrutinee at the head
    of [t], through the matches it is nested in. *)
Ltac head_scrutinee t :=
  lazymatch t with
  | match ?x with _ => _ end => head_scrutinee x
  | (match ?x with _ => _ end) _ => head_scrutinee x
  | _ => t
  end.

Ltac split_on t :=
  let y := head_scrutinee t in
  tryif constr_eq y t then fail else destruct y eqn:?.

(** Splits on the next answer the run waits for. *)
Ltac next_answer :=
  lazymatch goal with
  | |- ?lhs = _ -> _ => split_on lhs
  | |- ?lhs = _ => split_on lhs
  | |- ?g => split_on g
  end;
  cbv beta iota zeta;
  cbn [st_fignums st_open st_handles st_log ds_data ds_handle].

Ltac failed_run :=
  match goal with
  | |- (inl _, _) = (inr _, _) -> _ => intros; discriminate
  end.

Lemma remove_first_head (h : nat) (l : list nat) : remove_first h (h :: l) = l.
Proof. simpl. now rewrite Nat.eqb_refl. Qed.

Lemma extends_refl (l : list Entry) : extends l l.
Proof. now exists []. Qed.

Lemma extends_cons (x : Entry) (before after : list Entry) :
  extends before after -> extends before (x :: after).
Proof. intros [l ->]. now exists (x :: l). Qed.

Lemma extends_trans (a b c : list Entry) :
  extends a b -> extends b c -> extends a c.
Proof. intros [l ->] [m ->]. exists (m ++ l)%list. now rewrite app_assoc. Qed.

Ltac grown := repeat apply extends_cons; apply extends_refl.

(** The loader touches nothing of the state but the log. *)
Lemma load_vector_state (w : World) (path : Path) (s : State) :
  let '(r, s1) := _load_vector w path s in
  st_fignums s1 = st_fignums s /\ st_open s1 = st_open s
  /\ st_handles s1 = st_handles s
  /\ extends (st_log s) (st_log s1).
Proof.
  unfold _load_vector. unfold_calls.
  destruct (w_read_file w path) as [e|gdf]; [repeat split; simpl; grown|].
  destruct (gdf_crs gdf) eqn:Hcrs; cbv beta iota zeta.
  - destruct (to_crs_result w gdf (EPSG 3857)) as [e|g]; repeat split; simpl; grown.
  - unfold set_crs_result. rewrite Hcrs. cbv beta iota zeta.
    destruct (to_crs_result w _ (EPSG 3857)) as [e|g]; repeat split; simpl; grown.
Qed.

(** ** C3: the vector loader *)

(** What the loader returns and how it fails. *)
Lemma load_vector_outcome :
  forall (w : World) (path : Path) (s : State),
    match _load_vector w path s with
    | (inr gdf, s') =>
        gdf_crs gdf = Some (EPSG 3857)
        /\ exists src,
            w_read_file w path = inr src
            /\ to_crs_result w (mkGdf (gdf_features src) (Some (assumed_crs src)))
                             (EPSG 3857) = inr gdf
            /\ (gdf_crs src = None ->
                st_log s' =
                  (ReqToCrs (mkGdf (gdf_features src) (Some (EPSG 4326))) (EPSG 3857), None)
                  :: (ReqSetCrs src (EPSG 4326), None)
                  :: (ReqReadFile path, None) :: st_log s)
    | (inl r, _) =>
        exists e, r = FromLibrary e
                  /\ (w_read_file w path = inl e
                      \/ exists src,
                          w_read_file w path = inr src
                          /\ assumed_crs src <> EPSG 3857
                          /\ w_transform w (assumed_crs src) (EPSG 3857)
                                         (gdf_features src) = inl e)
    end.
Proof.
  intros w path s. unfold _load_vector. unfold_calls.
  destruct (w_read_file w path) as [e|src] eqn:Hread.
  { exists e. split; [reflexivity | now left]. }
  assert (Hsame : forall c, gdf_crs src = Some c ->
                            mkGdf (gdf_features src) (Some (assumed_crs src)) = src).
  { intros c Hc. unfold assumed_crs. rewrite Hc. destruct src; simpl in *. now subst. }
  assert (Hto : forall g c,
             gdf_crs g = Some c ->
             match to_crs_result w g (EPSG 3857) with
             | inr out => gdf_crs out = Some (EPSG 3857)
             | inl e => c <> EPSG 3857
                        /\ w_transform w c (EPSG 3857) (gdf_features g) = inl e
             end).
  { intros g c Hc. unfold to_crs_result. rewrite Hc.
    destruct (CRS_eqb c (EPSG 3857)) eqn:Heq.
    - rewrite Hc. destruct c as [n|t]; simpl in Heq; [|discriminate].
      apply Z.eqb_eq in Heq. now subst.
    - destruct (w_transform w c (EPSG 3857) (gdf_features g)); [|reflexivity].
      split; [|reflexivity]. intros ->. simpl in Heq. discriminate. }
  destruct (gdf_crs src) as [c|] eqn:Hcrs; cbv beta iota zeta.
  - pose proof (Hto src c Hcrs) as H3857.
    destruct (to_crs_result w src (EPSG 3857)) as [e|g] eqn:Hres.
    + exists e. split; [reflexivity|]. right. exists src.
      unfold assumed_crs. rewrite Hcrs. tauto.
    + split; [exact H3857|]. exists src. split; [reflexivity|].
      split; [now rewrite (Hsame c eq_refl) | intros Hn; congruence].
  - unfold set_crs_result. rewrite Hcrs. cbv beta iota zeta.
    pose proof (Hto (mkGdf (gdf_features src) (Some (EPSG 4326))) (EPSG 4326) eq_refl)
      as H3857.
    destruct (to_crs_result w (mkGdf (gdf_features src) (Some (EPSG 4326))) (EPSG 3857))
      as [e|g] eqn:Hres.
    + exists e. split; [reflexivity|]. right. exists src.
      unfold assumed_crs. rewrite Hcrs. simpl in H3857. tauto.
    + split; [exact H3857|]. exists src. split; [reflexivity|].
      unfold assumed_crs. rewrite Hcrs. split; [exact Hres | reflexivity].
Qed.

(** C3. Whatever [_load_vector] returns is in EPSG:3857. A source without
    a reference system is first declared EPSG:4326 and then reprojected
    from there, as the log shows; the loader fails only when the reader or
    the projection engine fails, never for a missing reference system. *)
Theorem load_vector_crs :
  forall (w : World) (path : Path) (s : State),
    match _load_vector w path s with
    | (inr gdf, s') =>
        gdf_crs gdf = Some (EPSG 3857)
        /\ exists src,
            w_read_file w path = inr src
            /\ to_crs_result w (mkGdf (gdf_features src) (Some (assumed_crs src)))
                             (EPSG 3857) = inr gdf
            /\ (gdf_crs src = None ->
                st_log s' =
                  (ReqToCrs (mkGdf (gdf_features src) (Some (EPSG 4326))) (EPSG 3857), None)
                  :: (ReqSetCrs src (EPSG 4326), None)
                  :: (ReqReadFile path, None) :: st_log s)
    | (inl r, _) =>
        exists e, r = FromLibrary e
                  /\ (w_read_file w path = inl e
                      \/ exists src,
                          w_read_file w path = inr src
                          /\ assumed_crs src <> EPSG 3857
                          /\ w_transform w (assumed_crs src) (EPSG 3857)
                                         (gdf_features src) = inl e)
    end.
Proof. exact load_vector_outcome. Qed.

Lemma load_vector_crs_witness :
  exists gdf s',
    _load_vector Sample.world (parse "data/point.geojson") empty_state = (inr gdf, s')
    /\ gdf_crs gdf = Some (EPSG 3857)
    /\ st_log s' =
         [(ReqToCrs (mkGdf (gdf_features Sample.point) (Some (EPSG 4326))) (EPSG 3857), None);
          (ReqSetCrs Sample.point (EPSG 4326), None);
          (ReqReadFile (parse "data/point.geojson"), None)].
Proof.
  pose proof (load_vector_crs Sample.world (parse "data/point.geojson") empty_state) as H.
  destruct (_load_vector Sample.world (parse "data/point.geojson") empty_state)
    as [[r|gdf] s'] eqn:E; [vm_compute in E; discriminate|].
  destruct H as (Hcrs & src & Hread & _ & Hlog).
  exists gdf, s'. split; [reflexivity|]. split; [exact Hcrs|].
  vm_compute in Hread. injection Hread as <-.
  apply Hlog. reflexivity.
Defined.

(** ** The vector branch, step by step *)


(** ** C4: the extent of the frame returned for a vector input *)





(** ** The raster branch, step by step *)

(** What a successful run of the raster branch went through. *)
Lemma raster_branch_success
      (w : World) (path : Path) (kw : Kwargs) (figsize : Z * Z) (attr : bool)
      (s s' : State) (fig : Figure) (ax : Axes) :
  raster_branch w path kw figsize attr s = (inr (fig, ax), s') ->
  exists d de b xl yl arts,
    w_rasterio_open w path = inr d
    /\ w_show_raster w d kw = inr de
    /\ bounds_3857 w d = inr b
    /\ Mpl.set_lim (item b 0) (item b 2) = inr xl
    /\ Mpl.set_lim (item b 1) (item b 3) = inr yl
    /\ w_add_basemap w xl yl (CrsString "EPSG: 3857") attr = inr arts
    /\ ax = data_frame de
    /\ fig = mkFigure (next_fignum (st_fignums s)) figsize
                      [data_frame de; basemap_frame xl yl arts]
    /\ s' = mkState (next_fignum (st_fignums s) :: st_fignums s)
                    (st_open s) (S (st_handles s))
                    ((ReqRasterClose (st_handles s), None)
                     :: (ReqAddBasemap xl yl (CrsString "EPSG: 3857") attr, None)
                     :: (ReqSetYlim (item b 1) (item b 3), None)
                     :: (ReqSetXlim (item b 0) (item b 2), None)
                     :: (let '(l, bo, r, t) := rd_bounds d in
                         ReqTransformBounds (rd_crs d) "EPSG: 3857" l bo r t, None)
                     :: (ReqShowRaster (mkDataset (st_handles s) d) kw, None)
                     :: (ReqSubplots figsize, None)
                     :: (ReqRasterOpen path, None)
                     :: st_log s).
Proof.
  unfold_calls.
  repeat (next_answer; try failed_run).
  intros H. inversion H; subst; clear H.
  simpl ds_data in *. simpl ds_handle in *.
  match goal with
  | Ho : w_rasterio_open _ _ = inr ?d, Hs : w_show_raster _ _ _ = inr ?de,
    Hb : rd_bounds _ = _, Ht : w_transform_bounds _ _ _ _ _ _ _ = inr ?b,
    Hx : Mpl.set_lim _ (item _ 2) = inr ?p, Hy : Mpl.set_lim _ (item _ 3) = inr ?q,
    Ha : w_add_basemap _ _ _ _ _ = inr ?l |- _ =>
      exists d, de, b, p, q, l; rewrite Hb;
      repeat (split; [first [reflexivity | assumption | exact Ha]|]);
      first [rewrite remove_first_head | rewrite Nat.eqb_refl]; reflexivity
  end.
Qed.

(** ** C5: the raster is drawn as it is, the basemap on its transformed box *)




(** ** C6: the order of the two frames *)

(** C6. On a successful call with a raster input the figure holds two
    frames, the data frame and the basemap frame; the basemap frame is
    painted first and the data frame, whose patch has alpha 0, on top of
    it; the frame returned is the data frame: the framed one the raster
    was drawn into, not the frameless one that holds the tiles. *)
Theorem raster_frames_order :
  forall (w : World) (data_path : PathArg) (kw : option Kwargs)
         (figsize : Z * Z) (attr : bool) (s s' : State)
         (fig : Figure) (ax : Axes),
    _is_vector (Path_of data_path) = false ->
    _is_raster (Path_of data_path) = true ->
    show_on_basemap w data_path kw figsize attr s = (inr (fig, ax), s') ->
    exists axb d de arts,
      fig_axes fig = [ax; axb]
      /\ Mpl.draw_order fig = [axb; ax]
      /\ (ax_zorder axb < ax_zorder ax)%Z
      /\ ax_patch_alpha ax = Some 0%Z
      /\ ax_frameon ax = true /\ ax_frameon axb = false
      /\ w_rasterio_open w (Path_of data_path) = inr d
      /\ w_show_raster w d (or_empty kw) = inr de
      /\ ax_artists ax = de_artists de
      /\ w_add_basemap w (ax_xlim axb) (ax_ylim axb) (CrsString "EPSG: 3857") attr
         = inr arts
      /\ ax_artists axb = arts
      /\ ax <> axb.
Proof.
  intros w data_path kw figsize attr s s' fig ax Hv Hr Hrun.
  pose proof (run_returns_found w data_path kw figsize attr s _ _ Hrun) as Hex.
  rewrite (run_raster w data_path kw figsize attr s Hex Hv Hr) in Hrun.
  apply raster_branch_success in Hrun
    as (d & de & b & xl & yl & arts & Hd & Hde & _ & _ & _ & Harts & Hax & Hfig & _).
  subst ax fig.
  exists (basemap_frame xl yl arts), d, de, arts.
  repeat (split; [first [reflexivity | assumption]|]).
  intros H. apply (f_equal ax_frameon) in H. discriminate H.
Qed.

Lemma raster_frames_order_witness :
  exists fig ax axb s',
    Sample.run Sample.world "data/landcover.tif" empty_state = (inr (fig, ax), s')
    /\ Mpl.draw_order fig = [axb; ax]
    /\ ax_patch_alpha ax = Some 0%Z
    /\ ax_artists ax = ["AxesImage"]
    /\ ax_artists axb = ["AxesImage"; "Text"].
Proof.
  destruct (Sample.run Sample.world "data/landcover.tif" empty_state)
    as [[r | [fig ax]] s'] eqn:Hrun; [vm_compute in Hrun; discriminate|].
  destruct (raster_frames_order Sample.world (ArgStr "data/landcover.tif") None
              (10, 10)%Z true empty_state s' fig ax eq_refl eq_refl Hrun)
    as (axb & d & de & arts & _ & Hord & _ & Halpha & _ & _ & Hd & Hde & Hart & Hb & Hartb & _).
  exists fig, ax, axb, s'.
  split; [reflexivity|]. split; [exact Hord|]. split; [exact Halpha|].
  vm_compute in Hd. injection Hd as <-.
  vm_compute in Hde. injection Hde as <-.
  vm_compute in Hb. injection Hb as <-.
  split; [exact Hart | exact Hartb].
Defined.

(** ** C7: the lifetime of the raster handle *)

Lemma open_not_closed_here (path : Path) (before : list Entry) :
  open_not_closed path before ((ReqRasterOpen path, None) :: before).
Proof. exists []. now split. Qed.

Lemma open_not_closed_step (path : Path) (x : Entry) (before after : list Entry) :
  is_close x = false ->
  open_not_closed path before after -> open_not_closed path before (x :: after).
Proof.
  intros Hx (mid & -> & Hmid). exists (x :: mid). split; [reflexivity|].
  simpl. now rewrite Hx, Hmid.
Qed.

Ltac since_open :=
  repeat first [ apply open_not_closed_here
               | apply open_not_closed_step; [reflexivity|] ].

(** C7. With a raster input, a call that returns has closed the handle it
    opened: the handle is the one issued at the start of the branch, its
    [close] is the last request of the call, and the open handles are the
    ones open before the call. A call that fails after the dataset was
    opened never reached [close]: the handle is still among the open ones
    and no request since the opening closes a raster. A call on which
    [rasterio.open] itself fails leaves no handle behind. *)
Theorem raster_handle_lifetime :
  forall (w : World) (data_path : PathArg) (kw : option Kwargs)
         (figsize : Z * Z) (attr : bool) (s : State),
    w_exists w (Path_of data_path) = inr true ->
    _is_vector (Path_of data_path) = false ->
    _is_raster (Path_of data_path) = true ->
    match show_on_basemap w data_path kw figsize attr s with
    | (inr _, s') =>
        st_open s' = st_open s
        /\ st_handles s' = S (st_handles s)
        /\ exists rest,
            st_log s' = (ReqRasterClose (st_handles s), None) :: rest
            /\ open_not_closed (Path_of data_path) (st_log s) rest
    | (inl _, s') =>
        match w_rasterio_open w (Path_of data_path) with
        | inr _ =>
            st_open s' = st_handles s :: st_open s
            /\ open_not_closed (Path_of data_path) (st_log s) (st_log s')
        | inl e =>
            st_open s' = st_open s
            /\ st_log s' = (ReqRasterOpen (Path_of data_path), Some e) :: st_log s
        end
    end.
Proof.
  intros w data_path kw figsize attr s Hex Hv Hr.
  rewrite (run_raster w data_path kw figsize attr s Hex Hv Hr).
  unfold_calls.
  destruct (w_rasterio_open w (Path_of data_path)) as [e|d];
    cbv beta iota zeta; [now split|].
  repeat (next_answer; try (split; [reflexivity | since_open])).
  first [rewrite remove_first_head | rewrite Nat.eqb_refl].
  split; [reflexivity|]. split; [reflexivity|].
  eexists. split; [reflexivity | since_open].
Qed.

Lemma raster_handle_lifetime_witness :
  (exists v s', Sample.run Sample.world "data/landcover.tif" empty_state = (inr v, s')
                /\ st_open s' = [])
  /\ (exists r s', Sample.run Sample.offline "data/landcover.tif" empty_state = (inl r, s')
                   /\ st_open s' = [0]).
Proof.
  unfold Sample.run. split.
  - pose proof (raster_handle_lifetime Sample.world (ArgStr "data/landcover.tif") None
                  (10, 10)%Z true empty_state eq_refl eq_refl eq_refl) as H.
    destruct (show_on_basemap Sample.world (ArgStr "data/landcover.tif") None
                (10, 10)%Z true empty_state) as [[r|v] s'] eqn:Hrun;
      [vm_compute in Hrun; discriminate|].
    exists v, s'. split; [reflexivity | apply H].
  - pose proof (raster_handle_lifetime Sample.offline (ArgStr "data/landcover.tif") None
                  (10, 10)%Z true empty_state eq_refl eq_refl eq_refl) as H.
    destruct (show_on_basemap Sample.offline (ArgStr "data/landcover.tif") None
                (10, 10)%Z true empty_state) as [[r|v] s'] eqn:Hrun;
      [|vm_compute in Hrun; discriminate].
    exists r, s'. split; [reflexivity|].
    change (w_rasterio_open Sample.offline (Path_of (ArgStr "data/landcover.tif")))
      with (@inr PyExc RasterData Sample.landcover) in H.
    apply H.
Defined.

(** ** C8: the two errors of the function and the errors of the libraries *)

Lemma clean_refl (w : World) (l : list Entry) : clean w l l.
Proof. exists []. split; [reflexivity | intros q o []]. Qed.

Lemma clean_step (w : World) (q : Request) (before after : list Entry) :
  outcome w q = None -> clean w before after -> clean w before ((q, None) :: after).
Proof.
  intros Hq (added & -> & Hall). exists ((q, None) :: added).
  split; [reflexivity|].
  intros q' o [E|Hin]; [inversion E; subst; now split | now apply Hall].
Qed.

(** Closes [outcome w q = o] with the answers recorded in the context. *)
Ltac recorded :=
  cbv beta iota zeta delta [outcome ds_data];
  first
    [ reflexivity
    | match goal with
      | H : ?r = _ |- error_of ?r = _ => rewrite H; reflexivity
      | H : ?r = _ |- error_of ?r' = _ => change r' with r; rewrite H; reflexivity
      end ].

Ltac all_clean := repeat (apply clean_step; [recorded|]); apply clean_refl.

(** How a run that ended in a library's exception is logged. *)
Ltac library_failure :=
  split; [intros; congruence|];
  eexists; eexists; split; [reflexivity|]; split; [recorded | all_clean].

Ltac library_failure' := split; [intros; congruence|]; library_failure.

(** C8. The function raises two errors of its own and no other:
    [FileNotFoundError] when [path.exists()] answers [False], before
    anything else, and [ValueError] when the path exists and is neither
    vector nor raster; both leave the state untouched. Every other failure
    (an [OSError] of the existence check included) is the exception of the
    latest request, with the type and message the library gave it; every
    request before it returned normally, and on a call that returns every
    request returned normally: no exception of a library is caught,
    replaced or passed over. *)
Theorem error_taxonomy :
  forall (w : World) (data_path : PathArg) (kw : option Kwargs)
         (figsize : Z * Z) (attr : bool) (s : State),
    let path := Path_of data_path in
    let '(r, s') := show_on_basemap w data_path kw figsize attr s in
    (w_exists w path = inr false ->
     r = inl (Own (FileNotFoundError (not_found_message path))))
    /\ (forall e, w_exists w path = inl e -> r = inl (FromLibrary e))
    /\ match r with
       | inl (Own e) =>
           s' = s
           /\ ((w_exists w path = inr false
                /\ e = FileNotFoundError (not_found_message path))
               \/ (w_exists w path = inr true
                   /\ _is_vector path = false /\ _is_raster path = false
                   /\ e = ValueError (unsupported_message path)))
       | inl (FromLibrary e) =>
           exists q rest,
             st_log s' = (q, Some e) :: rest
             /\ outcome w q = Some e
             /\ clean w (st_log s) rest
       | inr _ => clean w (st_log s) (st_log s')
       end.
Proof.
  intros w data_path kw figsize attr s path. unfold path.
  destruct (w_exists w (Path_of data_path)) as [e|[|]] eqn:Hex.
  - rewrite (run_exists_error w data_path kw figsize attr s e Hex).
    split; [intros; congruence|]. split; [intros; congruence|].
    exists (ReqExists (Path_of data_path)), (st_log s).
    split; [reflexivity|]. split; [simpl; now rewrite Hex | apply clean_refl].
  - destruct (_is_vector (Path_of data_path)) eqn:Hv.
    + rewrite (run_vector w data_path kw figsize attr s Hex Hv).
      unfold vector_branch, _load_vector. unfold_calls.
      repeat (next_answer; try solve [library_failure']).
      all: split; [intros; congruence|]; split; [intros; congruence|];
        simpl st_log; all_clean.
    + destruct (_is_raster (Path_of data_path)) eqn:Hr.
      * rewrite (run_raster w data_path kw figsize attr s Hex Hv Hr).
        unfold_calls.
        repeat (next_answer; try solve [library_failure']).
        all: split; [intros; congruence|]; split; [intros; congruence|];
          simpl st_log; all_clean.
      * rewrite (run_unsupported w data_path kw figsize attr s Hex Hv Hr).
        split; [intros; congruence|]. split; [intros; congruence|].
        split; [reflexivity|]. right. tauto.
  - rewrite (run_missing w data_path kw figsize attr s Hex).
    split; [reflexivity|]. split; [intros; congruence|].
    split; [reflexivity|]. left. now split.
Qed.

Lemma error_taxonomy_witness :
  (exists e s' q,
      Sample.run Sample.offline "data/landcover.tif" empty_state
      = (inl (FromLibrary e), s')
      /\ outcome Sample.offline q = Some e
      /\ e = mkExc "ConnectionError" "tile server unreachable")
  /\ Sample.run Sample.offline "data/missing.tif" empty_state
     = (inl (Own (FileNotFoundError "Could not find data/missing.tif.")), empty_state).
Proof.
  unfold Sample.run. split.
  - pose proof (error_taxonomy Sample.offline (ArgStr "data/landcover.tif") None
                  (10, 10)%Z true empty_state) as H.
    cbv zeta in H.
    destruct (show_on_basemap Sample.offline (ArgStr "data/landcover.tif") None
                (10, 10)%Z true empty_state) as [[[e|e]|v] s'] eqn:Hrun;
      try (vm_compute in Hrun; discriminate).
    destruct H as (_ & _ & q & rest & _ & Hq & _).
    exists e, s', q. split; [reflexivity|]. split; [exact Hq|].
    vm_compute in Hrun. now injection Hrun as <- _.
  - pose proof (error_taxonomy Sample.offline (ArgStr "data/missing.tif") None
                  (10, 10)%Z true empty_state) as H.
    cbv zeta in H.
    destruct (show_on_basemap Sample.offline (ArgStr "data/missing.tif") None
                (10, 10)%Z true empty_state) as [r s'] eqn:Hrun.
    destruct H as (Hfirst & _ & Hkind).
    rewrite (Hfirst eq_refl) in Hkind. destruct Hkind as (-> & _).
    now rewrite (Hfirst eq_refl).
Defined.

(** ** C9: what one call can see of the calls before it *)

Ltac run_as_branch Hex :=
  first
    [ rewrite !(run_exists_error _ _ _ _ _ _ _ Hex)
    | rewrite !(run_missing _ _ _ _ _ _ Hex)
    | match goal with
      | Hv : _is_vector _ = true |- _ => rewrite !(run_vector _ _ _ _ _ _ Hex Hv)
      | Hv : _is_vector _ = false, Hr : _is_raster _ = true |- _ =>
          rewrite !(run_raster _ _ _ _ _ _ Hex Hv Hr)
      | Hv : _is_vector _ = false, Hr : _is_raster _ = false |- _ =>
          rewrite !(run_unsupported _ _ _ _ _ _ Hex Hv Hr)
      end ];
  cbv beta iota zeta delta [fst forget_number];
  try (unfold vector_branch, _load_vector); unfold_calls.

Lemma next_fignum_pushed (l : list nat) :
  next_fignum (next_fignum l :: l) = S (next_fignum l).
Proof.
  destruct l as [|n l]; [reflexivity|].
  unfold next_fignum. cbn [fold_right]. f_equal. apply Nat.max_l. lia.
Qed.

(** With the figure number set aside, the outcome of a call is the same
    from any two states of the process. *)
Lemma outcome_up_to_number
      (w : World) (data_path : PathArg) (kw : option Kwargs)
      (figsize : Z * Z) (attr : bool) (s1 s2 : State) :
  forget_number (fst (show_on_basemap w data_path kw figsize attr s1))
  = forget_number (fst (show_on_basemap w data_path kw figsize attr s2)).
Proof.
  destruct (w_exists w (Path_of data_path)) as [e|[|]] eqn:Hex;
    [run_as_branch Hex; reflexivity | | run_as_branch Hex; reflexivity].
  destruct (_is_vector (Path_of data_path)) eqn:Hv;
    [|destruct (_is_raster (Path_of data_path)) eqn:Hr];
    run_as_branch Hex; try reflexivity;
    repeat (next_answer; try reflexivity).
Qed.

(** A call that returns has added its figure to pyplot's registry under
    the next number; no call removes a figure. *)
Lemma figure_numbered_and_kept
      (w : World) (data_path : PathArg) (kw : option Kwargs)
      (figsize : Z * Z) (attr : bool) (s : State) :
  match show_on_basemap w data_path kw figsize attr s with
  | (inr (fig, _), s') =>
      fig_number fig = next_fignum (st_fignums s)
      /\ st_fignums s' = fig_number fig :: st_fignums s
  | (inl _, s') =>
      st_fignums s' = st_fignums s
      \/ st_fignums s' = next_fignum (st_fignums s) :: st_fignums s
  end.
Proof.
  destruct (w_exists w (Path_of data_path)) as [e|[|]] eqn:Hex;
    [rewrite (run_exists_error _ _ _ _ _ _ _ Hex); now left |
     | rewrite (run_missing _ _ _ _ _ _ Hex); now left].
  destruct (_is_vector (Path_of data_path)) eqn:Hv;
    [|destruct (_is_raster (Path_of data_path)) eqn:Hr];
    run_as_branch Hex; try (left; reflexivity);
    repeat (next_answer;
            try solve [left; reflexivity | right; reflexivity
                       | split; reflexivity]).
Qed.

(** C9, as amended. The calls are not independent: a call that returns
    has left its figure in pyplot's registry, which the function never
    empties. When the file system and the libraries answer every request
    of a second, identical call as they answered the first (one world for
    both calls), the second call ends the same way up to the figure's
    number: if the first call failed, the second fails with the same
    exception; if it returned, the second returns the same frame and a
    figure of the same size with the same frames, numbered one above the
    first, and the registry holds both figures on top of what it held. Of
    the three things carried from call to call here (the registry, the
    raster handles left open, the requests made so far) only the registry
    reaches the result, and only as the figure's number. What a library
    keeps for itself between calls (a tile cache, a dataset cache) is part
    of the world's answers, and nothing is said of calls between which
    those answers change. *)
Theorem repeated_call_is_renumbered :
  forall (w : World) (data_path : PathArg) (kw : option Kwargs)
         (figsize : Z * Z) (attr : bool) (s : State),
    let '(r1, s1) := show_on_basemap w data_path kw figsize attr s in
    let '(r2, s2) := show_on_basemap w data_path kw figsize attr s1 in
    forget_number r2 = forget_number r1
    /\ (forall s', forget_number (fst (show_on_basemap w data_path kw figsize attr s'))
                   = forget_number r1)
    /\ match r1 with
       | inr (fig1, ax1) =>
           exists fig2,
             r2 = inr (fig2, ax1)
             /\ fig_number fig1 = next_fignum (st_fignums s)
             /\ fig_number fig2 = S (fig_number fig1)
             /\ fig_figsize fig2 = fig_figsize fig1
             /\ fig_axes fig2 = fig_axes fig1
             /\ st_fignums s2 = fig_number fig2 :: fig_number fig1 :: st_fignums s
       | inl e => r2 = inl e
       end.
Proof.
  intros w data_path kw figsize attr s.
  pose proof (figure_numbered_and_kept w data_path kw figsize attr s) as Hn1.
  pose proof (fun s' => outcome_up_to_number w data_path kw figsize attr s' s) as Hany.
  destruct (show_on_basemap w data_path kw figsize attr s) as [r1 s1] eqn:Hrun1.
  pose proof (figure_numbered_and_kept w data_path kw figsize attr s1) as Hn2.
  pose proof (Hany s1) as H12.
  destruct (show_on_basemap w data_path kw figsize attr s1) as [r2 s2] eqn:Hrun2.
  cbn [fst] in *.
  split; [exact H12|]. split; [exact Hany|].
  destruct r1 as [e1 | [fig1 ax1]].
  - destruct r2 as [e2 | [fig2 ax2]]; simpl in H12; congruence.
  - destruct r2 as [e2 | [fig2 ax2]]; simpl in H12; [discriminate|].
    injection H12 as Hsize Haxes Hax. subst ax2.
    destruct Hn1 as [Hnum1 Hreg1]. destruct Hn2 as [Hnum2 Hreg2].
    exists fig2. split; [reflexivity|]. split; [exact Hnum1|].
    assert (Hsucc : fig_number fig2 = S (fig_number fig1)).
    { rewrite Hnum2, Hreg1, Hnum1. apply next_fignum_pushed. }
    split; [exact Hsucc|]. split; [exact Hsize|]. split; [exact Haxes|].
    now rewrite Hreg2, Hreg1.
Qed.

Lemma repeated_call_is_renumbered_witness :
  exists fig1 fig2 ax s1 s2,
    Sample.run Sample.world "data/landcover.tif" empty_state = (inr (fig1, ax), s1)
    /\ Sample.run Sample.world "data/landcover.tif" s1 = (inr (fig2, ax), s2)
    /\ fig_number fig2 = S (fig_number fig1)
    /\ fig_axes fig2 = fig_axes fig1.
Proof.
  pose proof (repeated_call_is_renumbered Sample.world (ArgStr "data/landcover.tif")
                None (10, 10)%Z true empty_state) as H.
  unfold Sample.run.
  destruct (show_on_basemap Sample.world (ArgStr "data/landcover.tif") None
              (10, 10)%Z true empty_state) as [[e | [fig1 ax1]] s1] eqn:Hrun1;
    [vm_compute in Hrun1; discriminate|].
  destruct (show_on_basemap Sample.world (ArgStr "data/landcover.tif") None
              (10, 10)%Z true s1) as [r2 s2] eqn:Hrun2.
  destruct H as (_ & _ & fig2 & -> & _ & Hnum & _ & Haxes & _).
  exists fig1, fig2, ax1, s1, s2.
  split; [reflexivity|]. split; [exact Hrun2|]. split; [exact Hnum | exact Haxes].
Defined.

(** C9 as stated fails on two calls in a row with the same input: both
    succeed, the first figure is number 1 and the second number 2,
    because the first call left its figure in pyplot's registry; the two
    results differ. *)
Lemma second_call_is_numbered_after_the_first :
  exists fig1 ax1 s1 fig2 ax2 s2,
    Sample.run Sample.world "data/towns.shp" empty_state = (inr (fig1, ax1), s1)
    /\ Sample.run Sample.world "data/towns.shp" s1 = (inr (fig2, ax2), s2)
    /\ fig_number fig1 = 1
    /\ fig_number fig2 = 2
    /\ st_fignums s2 = [2; 1]
    /\ fig1 <> fig2.
Proof.
  do 6 eexists.
  split; [vm_compute; reflexivity|].
  split; [vm_compute; reflexivity|].
  split; [reflexivity|].
  split; [reflexivity|].
  split; [reflexivity|].
  intros H. apply (f_equal fig_number) in H. vm_compute in H. discriminate H.
Qed.

(* ================================================================== *)
(** * Further properties *)

(** ** The vector branch: what is requested, and in which order *)



(** ** Names that carry no extension *)

(** A final component without a dot, with its only dot in front (a hidden
    file such as [.shp]) or with its last dot at the very end (such as
    [map.tif.]) has an empty suffix: the path is neither vector nor
    raster, and when it exists the call fails with the
    unsupported-extension error, whose message quotes an empty
    extension. *)
Theorem names_without_extension_are_unsupported :
  forall (w : World) (data_path : PathArg) (kw : option Kwargs)
         (figsize : Z * Z) (attr : bool) (s : State),
    PyStr.rfind_dot (name (Path_of data_path)) = None
    \/ PyStr.rfind_dot (name (Path_of data_path)) = Some 0
    \/ PyStr.rfind_dot (name (Path_of data_path))
       = Some (String.length (name (Path_of data_path)) - 1) ->
    suffix (Path_of data_path) = ""
    /\ classify (Path_of data_path) = Unsupported
    /\ (w_exists w (Path_of data_path) = inr true ->
        show_on_basemap w data_path kw figsize attr s
        = (inl (Own (ValueError
             ("Filetype '' not recognized. "
              ++ "Supported vectors: .shp .geojson .json .gpkg .fgb; "
              ++ "Supported rasters: .tif .tiff .geotiff"))), s)).
Proof.
  intros w data_path kw figsize attr s Hname.
  assert (Hsuf : suffix (Path_of data_path) = "").
  { unfold suffix, suffix_of_name.
    destruct Hname as [-> | [-> | ->]]; [reflexivity | reflexivity |].
    rewrite Nat.ltb_irrefl, andb_false_r. reflexivity. }
  assert (Hv : _is_vector (Path_of data_path) = false)
    by (unfold _is_vector; now rewrite Hsuf).
  assert (Hr : _is_raster (Path_of data_path) = false)
    by (unfold _is_raster; now rewrite Hsuf).
  split; [exact Hsuf|]. split; [unfold classify; now rewrite Hv, Hr|].
  intros Hex.
  rewrite (run_unsupported w data_path kw figsize attr s Hex Hv Hr).
  unfold unsupported_message. now rewrite Hsuf.
Qed.

Lemma names_without_extension_are_unsupported_witness :
  suffix (parse "data/.shp") = ""
  /\ classify (parse "data/.shp") = Unsupported
  /\ classify (parse "data/map.tif.") = Unsupported
  /\ exists msg, show_on_basemap Sample2.world (ArgStr "data/.shp") None
                   (10, 10)%Z true empty_state
                 = (inl (Own (ValueError msg)), empty_state).
Proof.
  destruct (names_without_extension_are_unsupported Sample2.world (ArgStr "data/.shp")
              None (10, 10)%Z true empty_state) as (Hs & Hc & Hrun).
  { right. left. reflexivity. }
  destruct (names_without_extension_are_unsupported Sample2.world (ArgStr "data/map.tif.")
              None (10, 10)%Z true empty_state) as (_ & Hc' & _).
  { right. right. reflexivity. }
  split; [exact Hs|]. split; [exact Hc|]. split; [exact Hc'|].
  eexists. apply Hrun. reflexivity.
Defined.

(** Only the final component of the path counts: whatever the root and
    the directories above it are called, two paths with the same final
    component are classified alike. *)
Theorem classification_ignores_directories :
  forall (root root' : string) (dirs dirs' : list string) (nm : string),
    suffix (mkPath root (dirs ++ [nm])) = suffix_of_name nm
    /\ classify (mkPath root (dirs ++ [nm])) = classify (mkPath root' (dirs' ++ [nm])).
Proof.
  intros root root' dirs dirs' nm.
  assert (H : forall r d, suffix (mkPath r (d ++ [nm])) = suffix_of_name nm).
  { intros r d. unfold suffix, name. simpl p_parts. now rewrite last_last. }
  split; [apply H|].
  unfold classify, _is_vector, _is_raster. now rewrite !H.
Qed.

(** ** The loader on data that are in Web Mercator already *)

(** A source that declares EPSG:3857 leaves the loader as it was read:
    the same records, untouched, after the two requests [read_file] and
    [to_crs], and whatever the projection engine would answer. *)
Theorem load_vector_keeps_web_mercator :
  forall (w : World) (path : Path) (s : State) (src : GeoDataFrame),
    w_read_file w path = inr src ->
    gdf_crs src = Some (EPSG 3857) ->
    _load_vector w path s
    = (inr src,
       mkState (st_fignums s) (st_open s) (st_handles s)
               ((ReqToCrs src (EPSG 3857), None)
                :: (ReqReadFile path, None) :: st_log s)).
Proof.
  intros w path s src Hread Hcrs.
  unfold _load_vector. unfold_calls. rewrite Hread. cbv beta iota zeta.
  rewrite Hcrs. cbv beta iota zeta.
  unfold to_crs_result. rewrite Hcrs. reflexivity.
Qed.

Lemma load_vector_keeps_web_mercator_witness :
  fst (_load_vector Sample2.web_mercator (parse "data/towns.shp") empty_state)
  = inr (mkGdf (gdf_features Sample.towns) (Some (EPSG 3857))).
Proof.
  rewrite (load_vector_keeps_web_mercator Sample2.web_mercator
             (parse "data/towns.shp") empty_state
             (mkGdf (gdf_features Sample.towns) (Some (EPSG 3857))) eq_refl eq_refl).
  reflexivity.
Defined.

(** ** What each branch asks of the libraries, whatever the outcome *)

Lemma grows_nil (l : list Entry) : grows_by l l [].
Proof. reflexivity. Qed.

Lemma grows_cons (x : Entry) (before after added : list Entry) :
  grows_by before after added -> grows_by before (x :: after) (x :: added).
Proof. unfold grows_by. now intros ->. Qed.

Ltac grown_by := repeat apply grows_cons; apply grows_nil.

(** A call on a vector input, whether it returns or fails, opens no
    raster: the open handles and the count of handles issued are what
    they were, and none of its requests is a raster request. *)
Theorem vector_call_makes_no_raster_request :
  forall (w : World) (data_path : PathArg) (kw : option Kwargs)
         (figsize : Z * Z) (attr : bool) (s : State),
    _is_vector (Path_of data_path) = true ->
    let '(r, s') := show_on_basemap w data_path kw figsize attr s in
    st_open s' = st_open s
    /\ st_handles s' = st_handles s
    /\ exists added,
        grows_by (st_log s) (st_log s') added
        /\ existsb (fun x => is_raster_request (fst x)) added = false.
Proof.
  intros w data_path kw figsize attr s Hv.
  destruct (w_exists w (Path_of data_path)) as [e|[|]] eqn:Hex.
  1:{ rewrite (run_exists_error w data_path kw figsize attr s e Hex).
      repeat (split; [reflexivity|]).
      exists [(ReqExists (Path_of data_path), Some e)]. now split. }
  2:{ rewrite (run_missing w data_path kw figsize attr s Hex).
      repeat (split; [reflexivity|]). exists []. now split. }
  rewrite (run_vector w data_path kw figsize attr s Hex Hv).
  unfold vector_branch, _load_vector. unfold_calls.
  repeat (next_answer;
          try solve [repeat (split; [reflexivity|]);
                     eexists; split; [grown_by | reflexivity]]).
Qed.

Lemma vector_call_makes_no_raster_request_witness :
  st_open (snd (Sample.run Sample.offline "data/towns.shp" empty_state)) = []
  /\ st_handles (snd (Sample.run Sample.offline "data/towns.shp" empty_state)) = 0.
Proof.
  pose proof (vector_call_makes_no_raster_request Sample.offline
                (ArgStr "data/towns.shp") None (10, 10)%Z true empty_state eq_refl) as H.
  unfold Sample.run.
  destruct (show_on_basemap Sample.offline (ArgStr "data/towns.shp") None
              (10, 10)%Z true empty_state) as [r s'].
  destruct H as (Ho & Hh & _). now split.
Defined.

(** A call on a raster input, whether it returns or fails, never reads
    the file as vector data and never plots or reprojects records: none of
    its requests is a vector request. *)
Theorem raster_call_makes_no_vector_request :
  forall (w : World) (data_path : PathArg) (kw : option Kwargs)
         (figsize : Z * Z) (attr : bool) (s : State),
    _is_vector (Path_of data_path) = false ->
    _is_raster (Path_of data_path) = true ->
    let '(r, s') := show_on_basemap w data_path kw figsize attr s in
    exists added,
      grows_by (st_log s) (st_log s') added
      /\ existsb (fun x => is_vector_request (fst x)) added = false.
Proof.
  intros w data_path kw figsize attr s Hv Hr.
  destruct (w_exists w (Path_of data_path)) as [e|[|]] eqn:Hex.
  1:{ rewrite (run_exists_error w data_path kw figsize attr s e Hex).
      exists [(ReqExists (Path_of data_path), Some e)]. now split. }
  2:{ rewrite (run_missing w data_path kw figsize attr s Hex).
      exists []. now split. }
  rewrite (run_raster w data_path kw figsize attr s Hex Hv Hr).
  unfold_calls.
  repeat (next_answer;
          try solve [eexists; split; [grown_by | reflexivity]]).
Qed.

Lemma raster_call_makes_no_vector_request_witness :
  exists added,
    grows_by [] (st_log (snd (Sample.run Sample.offline "data/landcover.tif" empty_state)))
             added
    /\ existsb (fun x => is_vector_request (fst x)) added = false.
Proof.
  pose proof (raster_call_makes_no_vector_request Sample.offline
                (ArgStr "data/landcover.tif") None (10, 10)%Z true empty_state
                eq_refl eq_refl) as H.
  unfold Sample.run.
  destruct (show_on_basemap Sample.offline (ArgStr "data/landcover.tif") None
              (10, 10)%Z true empty_state) as [r s'].
  exact H.
Defined.

(** ** The figure of a call that fails *)

(** Whatever the input and the outcome, pyplot's registry after the call
    is the registry before it, with one more figure exactly when the call
    got as far as a [plt.subplots] that returned: a call that fails later
    (no tiles, limits refused) leaves its figure registered, a call that
    fails earlier leaves the registry as it was. *)
Theorem figure_stays_registered :
  forall (w : World) (data_path : PathArg) (kw : option Kwargs)
         (figsize : Z * Z) (attr : bool) (s : State),
    let '(r, s') := show_on_basemap w data_path kw figsize attr s in
    exists added,
      grows_by (st_log s) (st_log s') added
      /\ st_fignums s' =
         if existsb figure_created added
         then next_fignum (st_fignums s) :: st_fignums s
         else st_fignums s.
Proof.
  intros w data_path kw figsize attr s.
  destruct (w_exists w (Path_of data_path)) as [e|[|]] eqn:Hex.
  - rewrite (run_exists_error w data_path kw figsize attr s e Hex).
    exists [(ReqExists (Path_of data_path), Some e)]. now split.
  - destruct (_is_vector (Path_of data_path)) eqn:Hv.
    + rewrite (run_vector w data_path kw figsize attr s Hex Hv).
      unfold vector_branch, _load_vector. unfold_calls.
      repeat (next_answer;
              try solve [eexists; split; [grown_by | reflexivity]]).
    + destruct (_is_raster (Path_of data_path)) eqn:Hr.
      * rewrite (run_raster w data_path kw figsize attr s Hex Hv Hr).
        unfold_calls.
        repeat (next_answer;
                try solve [eexists; split; [grown_by | reflexivity]]).
      * rewrite (run_unsupported w data_path kw figsize attr s Hex Hv Hr).
        exists []. now split.
  - rewrite (run_missing w data_path kw figsize attr s Hex).
    exists []. now split.
Qed.

(** ** A dataset whose bounds are not finite *)

(** When the total bounds of the loaded data are not finite along x (as
    they are, all NaN, for a file without features), a call on which
    everything before went well fails in [set_xlim] with matplotlib's
    [ValueError]: by then the basemap has been fetched and the figure is
    registered, and no y limits are requested. *)
Theorem vector_nonfinite_bounds_fail :
  forall (w : World) (data_path : PathArg) (kw : option Kwargs)
         (figsize : Z * Z) (attr : bool) (s s1 : State)
         (gdf : GeoDataFrame) (d : DrawEffect) (arts : list Artist),
    w_exists w (Path_of data_path) = inr true ->
    _is_vector (Path_of data_path) = true ->
    _load_vector w (Path_of data_path) s = (inr gdf, s1) ->
    w_subplots w figsize = inr tt ->
    w_gdf_plot w gdf (or_empty kw) = inr d ->
    w_add_basemap w (de_xlim d) (de_ylim d) (CrsObject (gdf_crs gdf)) attr = inr arts ->
    is_finite (item (total_bounds w gdf) 0) && is_finite (item (total_bounds w gdf) 2)
    = false ->
    show_on_basemap w data_path kw figsize attr s
    = (inl (FromLibrary (ValueError "Axis limits cannot be NaN or Inf")),
       mkState (next_fignum (st_fignums s1) :: st_fignums s1) (st_open s1) (st_handles s1)
               ((ReqSetXlim (item (total_bounds w gdf) 0) (item (total_bounds w gdf) 2),
                 Some (ValueError "Axis limits cannot be NaN or Inf"))
                :: (ReqAddBasemap (de_xlim d) (de_ylim d) (CrsObject (gdf_crs gdf)) attr, None)
                :: (ReqPlotVector gdf (or_empty kw), None)
                :: (ReqSubplots figsize, None)
                :: st_log s1)).
Proof.
  intros w data_path kw figsize attr s s1 gdf d arts Hex Hv Hload Hsub Hplot Htiles Hfin.
  rewrite (run_vector w data_path kw figsize attr s Hex Hv).
  unfold_calls. rewrite Hload. cbv beta iota zeta.
  rewrite Hsub. cbv beta iota zeta.
  cbn [st_fignums st_open st_handles st_log].
  rewrite Hplot. cbv beta iota zeta.
  cbn [st_fignums st_open st_handles st_log].
  change (ax_xlim (draw_into (new_axes subplot_position true) d)) with (de_xlim d).
  change (ax_ylim (draw_into (new_axes subplot_position true) d)) with (de_ylim d).
  rewrite Htiles. cbv beta iota zeta.
  cbn [st_fignums st_open st_handles st_log].
  assert (Hlim : Mpl.set_lim (item (total_bounds w gdf) 0) (item (total_bounds w gdf) 2)
                 = inl (ValueError "Axis limits cannot be NaN or Inf")).
  { unfold Mpl.set_lim.
    destruct (is_finite (item (total_bounds w gdf) 0)),
             (is_finite (item (total_bounds w gdf) 2));
      simpl in Hfin; try discriminate; reflexivity. }
  rewrite Hlim. reflexivity.
Qed.

Lemma vector_nonfinite_bounds_fail_witness :
  fst (show_on_basemap Sample2.world (ArgStr "data/empty.geojson") None
         (10, 10)%Z true empty_state)
  = inl (FromLibrary (ValueError "Axis limits cannot be NaN or Inf")).
Proof.
  rewrite (vector_nonfinite_bounds_fail Sample2.world (ArgStr "data/empty.geojson") None
             (10, 10)%Z true empty_state
             (snd (_load_vector Sample2.world (parse "data/empty.geojson") empty_state))
             Sample2.empty_3857
             (mkDraw ["PathCollection"] (0, 1)%float (0, 1)%float)
             ["AxesImage"; "Text"]).
  - reflexivity.
  - reflexivity.
  - reflexivity.
  - vm_compute. reflexivity.
  - reflexivity.
  - reflexivity.
  - reflexivity.
  - vm_compute. reflexivity.
Defined.
